(** * Sonic contract deployer: shallow embedding and verified properties

    The repository holds two versions of one command-line tool:
    - [src/deploy.js], the token and NFT deployer (module [DeployJs]);
    - a token-only version of the same file (module [TokenOnly]).

    Both share the wallet loader, the settings menu and the report
    generator, which are embedded once (module [Shared]).  The chain
    SDKs, the clock, the random source and the operator are external:
    they are represented by a [World] of oracles that the embedded code
    consults in program order.  The working directory is part of the
    state. *)

From Stdlib Require Import ZArith Lia List String Ascii Bool.
From Stdlib Require Import Decimal DecimalString DecimalPos DecimalZ.
From Stdlib Require Import Sorting.Sorted Sorting.Permutation.
From stdpp Require Import base gmap strings list.
Import ListNotations.

Local Open Scope Z_scope.

(** ** JavaScript built-ins used by the program *)

Module JS.

(** What an [async] method hands back: the program only produces
    strings, or [undefined] when a [switch] matches no [case]. *)
Inductive value :=
| Undefined
| Str (s : string).

(** A thrown [Error] object: constructor name and [message]. *)
Record error := Error {
  name : string;
  message : string;
  code : option string }.

(** [new Error(msg)] *)
Definition mkError (msg : string) : error := Error "Error" msg None.
(** Reading an identifier that no declaration or import binds. *)
Definition mkReferenceError (ident : string) : error :=
  Error "ReferenceError" (ident +:+ " is not defined") None.
(** Property access on [undefined]. *)
Definition mkTypeError (prop : string) : error :=
  Error "TypeError"
    ("Cannot read properties of undefined (reading '" +:+ prop +:+ "')") None.

(** Result of [parseInt]: [NaN] or an integer.  The embedding keeps the
    mathematical integer; a JavaScript double represents it exactly
    below 2^53. *)
Inductive number :=
| NaN
| Int (z : Z).

(** [x || d] on numbers: [NaN] and [0] are falsy. *)
Definition or_default (x : number) (d : Z) : Z :=
  match x with
  | NaN => d
  | Int z => if z =? 0 then d else z
  end.

Definition charCode (c : ascii) : Z := Z.of_N (N_of_ascii c).

(** White space and line terminators of the ASCII range. *)
Definition is_white (c : ascii) : bool :=
  let n := charCode c in
  ((9 <=? n) && (n <=? 13)) || (n =? 32).

Fixpoint trimStart (s : string) : string :=
  match s with
  | EmptyString => EmptyString
  | String c r => if is_white c then trimStart r else s
  end.

Fixpoint trimEnd (s : string) : string :=
  match s with
  | EmptyString => EmptyString
  | String c r =>
      match trimEnd r with
      | EmptyString => if is_white c then EmptyString else String c EmptyString
      | r' => String c r'
      end
  end.

Definition trim (s : string) : string := trimEnd (trimStart s).

(** [s.split('\n')] *)
Fixpoint split_newline (s : string) : list string :=
  match s with
  | EmptyString => [EmptyString]
  | String c r =>
      if (charCode c =? 10) then EmptyString :: split_newline r
      else match split_newline r with
           | h :: t => String c h :: t
           | [] => [String c EmptyString]
           end
  end.

(** Value of a character as a digit of the given radix. *)
Definition digit_val (radix : Z) (c : ascii) : option Z :=
  let n := charCode c in
  let d :=
    if (48 <=? n) && (n <=? 57) then Some (n - 48)
    else if (97 <=? n) && (n <=? 122) then Some (n - 87)
    else if (65 <=? n) && (n <=? 90) then Some (n - 55)
    else None in
  match d with
  | Some v => if v <? radix then Some v else None
  | None => None
  end.

(** Longest prefix of radix digits, accumulated left to right; [seen]
    tells whether a digit was read. *)
Fixpoint digits_prefix (radix : Z) (s : string) (acc : Z) (seen : bool)
  : option Z :=
  match s with
  | EmptyString => if seen then Some acc else None
  | String c r =>
      match digit_val radix c with
      | Some d => digits_prefix radix r (acc * radix + d) true
      | None => if seen then Some acc else None
      end
  end.

Definition strip_sign (s : string) : Z * string :=
  match s with
  | String c r =>
      if charCode c =? 45 then (-1, r)
      else if charCode c =? 43 then (1, r)
      else (1, s)
  | EmptyString => (1, s)
  end.

Definition strip_hex (s : string) : Z * string :=
  match s with
  | String c0 (String c1 r) =>
      if (charCode c0 =? 48) && ((charCode c1 =? 120) || (charCode c1 =? 88))
      then (16, r) else (10, s)
  | _ => (10, s)
  end.

(** [parseInt(s)] with no radix argument. *)
Definition parseInt (s : string) : number :=
  let '(sign, s1) := strip_sign (trimStart s) in
  let '(radix, s2) := strip_hex s1 in
  match digits_prefix radix s2 0 false with
  | Some v => Int (sign * v)
  | None => NaN
  end.

(** [String(z)] / template interpolation of an integer. *)
Definition toString (z : Z) : string :=
  NilZero.string_of_int (Z.to_int z).

(** One result of [Math.random()]: the rational
    [num / (num + gap + 1)], which lies in [0, 1) by construction. *)
Record draw := Draw { num : N; gap : N }.

Definition denom (d : draw) : Z := Z.of_N (num d) + Z.of_N (gap d) + 1.

(** [Math.floor(Math.random() * n)] for the draw [d]. *)
Definition floor_scaled (d : draw) (n : Z) : Z :=
  (Z.of_N (num d) * n) / denom d.

(** [s.startsWith(p)] *)
Definition startsWith (p s : string) : bool := String.prefix p s.

(** [xs.sort()] with the default comparison (code-unit order), as a
    stable insertion sort. *)
Fixpoint insert_sorted (x : string) (l : list string) : list string :=
  match l with
  | [] => [x]
  | y :: t => if String.leb x y then x :: l else y :: insert_sorted x t
  end.

Definition sort (l : list string) : list string :=
  fold_right insert_sorted [] l.

End JS.

(** ** Data model, world and effects shared by both versions *)

Module Shared.

(** Entry of [wallet.tokenAccounts]: public keys are kept in base-58. *)
Record TokenInfo := { mint : string; account : string }.

(** The NFT object kept in [wallet.nftAccounts]. *)
Record Nft := {
  nft_address : string;
  nft_name : string;
  nft_uri : string;
  nft_sellerFeeBasisPoints : Z;
  nft_metadataAddress : string }.

Record Keypair := { secretKey : string; kp_publicKey : string }.

Record Wallet := {
  index : Z;
  keypair : Keypair;
  publicKey : string;
  tokenAccounts : gmap string TokenInfo;
  nftAccounts : gmap string Nft }.

Record Settings := { interactionCount : Z; interactionInterval : Z }.

Record DeploymentRecord := {
  d_timestamp : Z;
  d_walletIndex : Z;
  d_type : string;
  d_address : string }.

Record InteractionRecord := {
  i_timestamp : Z;
  i_walletIndex : Z;
  i_type : string;
  i_action : string;
  i_result : JS.value }.

(** What [deployToken] / [deployNFT] return. *)
Record Deployed := {
  address : string;
  tokenAccount : option string;
  metadata : option string }.

(** Outcome of an awaited external call. *)
Inductive reply (A : Type) :=
| Resolved (a : A)
| Rejected (e : JS.error).
Arguments Resolved {A} a.
Arguments Rejected {A} e.

(** Outcome of [fs.readFileSync(PRIVATE_KEYS_FILE, 'utf8')]. *)
Inductive read_result :=
| FileContent (s : string)
| ReadError (code : string) (msg : string).

(** Everything outside the program.  Library functions are pure
    fields; oracles are indexed by the number of earlier consultations
    of the same kind ([random], [clock], [answer]) or of the chain
    ([net]). *)
Record World := {
  (* [Keypair.fromSecretKey(bs58.decode(key))]; [None] when it throws *)
  fromSecretKey : string -> option Keypair;
  (* cli-table3: header and rows to text *)
  renderTable : list string -> list (list string) -> string;
  toLocaleTimeString : Z -> string;
  toISOString : Z -> string;
  (* [Math.random()], [Date.now()] / [new Date()], operator input *)
  random : nat -> JS.draw;
  clock : nat -> Z;
  answer : nat -> string;
  (* chain client and SDK calls *)
  getBalance : nat -> reply Z;
  getMinimumBalanceForRentExemption : nat -> reply Z;
  generateKeypair : nat -> Keypair;
  sendAndConfirmTransaction : nat -> reply unit;
  getAssociatedTokenAddress : nat -> reply string;
  getAccount : nat -> reply unit;
  createMint : nat -> reply string;
  getOrCreateAssociatedTokenAccount : nat -> reply string;
  mintTo : nat -> reply unit;
  transfer : nat -> reply unit;
  burn : nat -> reply unit;
  nftCreate : nat -> reply Nft;
  nftTransfer : nat -> reply unit;
  nftUpdate : nat -> reply unit }.

(** A call that leaves the program for the chain client or an SDK,
    with the arguments the program wires into it. *)
Inductive request :=
| GetBalance (pk : string)
| GetMinimumBalanceForRentExemption (space : Z)
| CreateAndInitializeMint (payer mintKey : string) (decimals : Z)
| GetAssociatedTokenAddress (mintKey owner : string)
| GetAccount (addr : string)
| CreateAssociatedTokenAccount (payer ata owner mintKey : string)
| MintTo (mintKey dest authority : string) (amount : Z)
| Transfer (src dest owner : string) (amount : Z)
| Burn (acct mintKey owner : string) (amount : Z)
| CreateMint (payer : string) (decimals : Z)
| GetOrCreateAssociatedTokenAccount (mintKey owner : string)
| NftCreate (name : string) (collection : option string)
| NftTransfer (nft fromOwner toOwner : string)
| NftUpdate (nft name : string).

(** The [SonicDeployer] instance together with the working directory
    and the oracle cursors. *)
Record State := {
  wallets : list Wallet;
  deployments : list DeploymentRecord;
  interactions : list InteractionRecord;
  settings : Settings;
  files : gmap string string;
  rnd : nat;
  clk : nat;
  ans : nat;
  net : nat }.

(** Observable actions, one constructor per output statement. *)
Inductive event :=
| KeyError (n : Z)                       (* Error processing key n *)
| Loaded (n : Z)                         (* Loaded n wallets successfully *)
| KeyFileMissing
| InitError (msg : string)
| Processing (idx : Z) (pk : string)     (* Processing Wallet #idx: pk *)
| Balance (lamports : Z)
| Insufficient                           (* Insufficient balance, skipping wallet *)
| Deploying (kind : string) (count : Z)
| Creating (kind : string) (idx : Z)     (* spinner.start in deployToken / deployNFT *)
| Created (kind : string) (addr : string)
| CreateFailed (kind : string) (msg : string)
| Starting (count : Z)                   (* Starting n random interactions... *)
| InteractionStart (i n : Z) (action : string)
| InteractionOk (result : JS.value)      (* spinner.succeed *)
| InteractionFailed (msg : string)       (* spinner.fail *)
| WalletError (msg : string)             (* Error processing wallet: msg *)
| Sleep (ms : Z)                         (* await setTimeout *)
| Call (rq : request)                    (* chain client or SDK call *)
| Question (prompt : string)
| Completed
| Generating
| ReportSaved (filename : string)
| Print (text : string)
| SettingsUpdated
| ShowSettings (count interval : Z)
| NoReports
| ReportEntry (n : Z) (filename : string)
| Invalid
| RunError (msg : string).

(** *** The effect monad: state, exceptions and an output trace *)

(** A computation returns, throws, or is still inside a loop when the
    rounds granted to that loop are used up ([Pending]). *)
Inductive result (A : Type) :=
| Ret (a : A)
| Throw (e : JS.error)
| Pending.
Arguments Ret {A} a.
Arguments Throw {A} e.
Arguments Pending {A}.

Definition M (A : Type) : Type := State -> result A * State * list event.

Definition ret {A} (a : A) : M A := fun s => (Ret a, s, []).

Definition throw {A} (e : JS.error) : M A := fun s => (Throw e, s, []).

Definition bind {A B} (m : M A) (f : A -> M B) : M B :=
  fun s =>
    match m s with
    | (Ret a, s1, t1) =>
        match f a s1 with
        | (r, s2, t2) => (r, s2, t1 ++ t2)
        end
    | (Throw e, s1, t1) => (Throw e, s1, t1)
    | (Pending, s1, t1) => (Pending, s1, t1)
    end.

(** [try { m } catch (e) { h e }] *)
Definition try_catch {A} (m : M A) (h : JS.error -> M A) : M A :=
  fun s =>
    match m s with
    | (Ret a, s1, t1) => (Ret a, s1, t1)
    | (Throw e, s1, t1) =>
        match h e s1 with
        | (r, s2, t2) => (r, s2, t1 ++ t2)
        end
    | (Pending, s1, t1) => (Pending, s1, t1)
    end.

Definition pending {A} : M A := fun s => (Pending, s, []).
Definition emit (e : event) : M unit := fun s => (Ret tt, s, [e]).
Definition get : M State := fun s => (Ret s, s, []).
Definition modify (f : State -> State) : M unit := fun s => (Ret tt, f s, []).

Declare Scope js_scope.
Delimit Scope js_scope with js.
Notation "x <- m ;; k" := (bind m (fun x => k))
  (at level 100, m at next level, right associativity) : js_scope.
Notation "m ;;; k" := (bind m (fun _ => k))
  (at level 100, right associativity) : js_scope.
Local Open Scope js_scope.

Definition run_result {A} (x : result A * State * list event) : result A :=
  fst (fst x).
Definition run_state {A} (x : result A * State * list event) : State :=
  snd (fst x).
Definition run_trace {A} (x : result A * State * list event) : list event :=
  snd x.

Definition set_wallets (ws : list Wallet) (s : State) : State :=
  {| wallets := ws; deployments := deployments s;
     interactions := interactions s; settings := settings s;
     files := files s; rnd := rnd s; clk := clk s; ans := ans s; net := net s |}.
Definition set_deployments (ds : list DeploymentRecord) (s : State) : State :=
  {| wallets := wallets s; deployments := ds;
     interactions := interactions s; settings := settings s;
     files := files s; rnd := rnd s; clk := clk s; ans := ans s; net := net s |}.
Definition set_interactions (xs : list InteractionRecord) (s : State) : State :=
  {| wallets := wallets s; deployments := deployments s;
     interactions := xs; settings := settings s;
     files := files s; rnd := rnd s; clk := clk s; ans := ans s; net := net s |}.
Definition set_settings (x : Settings) (s : State) : State :=
  {| wallets := wallets s; deployments := deployments s;
     interactions := interactions s; settings := x;
     files := files s; rnd := rnd s; clk := clk s; ans := ans s; net := net s |}.
Definition set_files (fs : gmap string string) (s : State) : State :=
  {| wallets := wallets s; deployments := deployments s;
     interactions := interactions s; settings := settings s;
     files := fs; rnd := rnd s; clk := clk s; ans := ans s; net := net s |}.
Definition set_rnd (n : nat) (s : State) : State :=
  {| wallets := wallets s; deployments := deployments s;
     interactions := interactions s; settings := settings s;
     files := files s; rnd := n; clk := clk s; ans := ans s; net := net s |}.
Definition set_clk (n : nat) (s : State) : State :=
  {| wallets := wallets s; deployments := deployments s;
     interactions := interactions s; settings := settings s;
     files := files s; rnd := rnd s; clk := n; ans := ans s; net := net s |}.
Definition set_ans (n : nat) (s : State) : State :=
  {| wallets := wallets s; deployments := deployments s;
     interactions := interactions s; settings := settings s;
     files := files s; rnd := rnd s; clk := clk s; ans := n; net := net s |}.
Definition set_net (n : nat) (s : State) : State :=
  {| wallets := wallets s; deployments := deployments s;
     interactions := interactions s; settings := settings s;
     files := files s; rnd := rnd s; clk := clk s; ans := ans s; net := n |}.

(** [wallet.tokenAccounts.set(key, info)] on the wallet at position [k]. *)
Definition tokenAccounts_set (k : nat) (key : string) (info : TokenInfo)
    (s : State) : State :=
  set_wallets
    (alter (fun w =>
       {| index := index w; keypair := keypair w; publicKey := publicKey w;
          tokenAccounts := <[key := info]> (tokenAccounts w);
          nftAccounts := nftAccounts w |}) k (wallets s)) s.

(** [wallet.nftAccounts.set(key, nft)] on the wallet at position [k]. *)
Definition nftAccounts_set (k : nat) (key : string) (nft : Nft)
    (s : State) : State :=
  set_wallets
    (alter (fun w =>
       {| index := index w; keypair := keypair w; publicKey := publicKey w;
          tokenAccounts := tokenAccounts w;
          nftAccounts := <[key := nft]> (nftAccounts w) |}) k (wallets s)) s.

Definition push_deployment (d : DeploymentRecord) (s : State) : State :=
  set_deployments (deployments s ++ [d]) s.

Definition push_interaction (x : InteractionRecord) (s : State) : State :=
  set_interactions (interactions s ++ [x]) s.

(** [0.1 * 1e9] lamports *)
Definition MIN_BALANCE : Z := 100000000.

Definition TOKEN_INTERACTIONS : list string := ["mint"; "transfer"; "burn"].
Definition NFT_INTERACTIONS : list string := ["mint"; "transfer"; "update"].

(** [xs[i]] rendered as the action name; the program only indexes
    with [Math.floor(Math.random() * xs.length)]. *)
Definition pick (xs : list string) (i : Z) : string :=
  if i <? 0 then "undefined" else nth (Z.to_nat i) xs "undefined".

(** State of a fresh [new SonicDeployer()] in a directory [dir]. *)
Definition constructor (dir : gmap string string) : State :=
  {| wallets := []; deployments := []; interactions := [];
     settings := {| interactionCount := 3; interactionInterval := 1 |};
     files := dir; rnd := 0; clk := 0; ans := 0; net := 0 |}.

Section Program.
Context (W : World).

(** [Math.floor(Math.random() * n)] *)
Definition random_below (n : Z) : M Z :=
  fun s => (Ret (JS.floor_scaled (random W (rnd s)) n), set_rnd (S (rnd s)) s, []).

(** [Date.now()] and [new Date()] *)
Definition now : M Z :=
  fun s => (Ret (clock W (clk s)), set_clk (S (clk s)) s, []).

(** [await question(prompt)] *)
Definition question (prompt : string) : M string :=
  fun s => (Ret (answer W (ans s)), set_ans (S (ans s)) s, [Question prompt]).

(** An awaited chain or SDK call: the request leaves the program and
    the next reply of its oracle comes back. *)
Definition chain {A} (rq : request) (oracle : World -> nat -> reply A)
  : M A :=
  fun s =>
    match oracle W (net s) with
    | Resolved a => (Ret a, set_net (S (net s)) s, [Call rq])
    | Rejected e => (Throw e, set_net (S (net s)) s, [Call rq])
    end.

(** [Keypair.generate()] *)
Definition newKeypair : M Keypair :=
  fun s => (Ret (generateKeypair W (net s)), set_net (S (net s)) s, []).

Definition PRIVATE_KEYS_FILE : string := "private-sonic.txt".
Definition newline : string := String "010" EmptyString.

  (** [xs.map((x, i) => f x i)] for a callback with effects. *)
Fixpoint map_indexed {A B} (f : A -> nat -> M B) (l : list A) (i : nat)
: M (list B) :=
match l with
| [] => ret []
| x :: r =>
    y <- f x i ;;
    ys <- map_indexed f r (S i) ;;
    ret (y :: ys)
end.

  (** [xs.forEach(f)] *)
Fixpoint forEach {A} (f : A -> M unit) (l : list A) : M unit :=
match l with
| [] => ret tt
| x :: r => f x ;;; forEach f r
end.

  (** The non-blank, trimmed lines of the key file. *)
Definition privateKeys (content : string) : list string :=
List.filter (fun key => (0 <? String.length key)%nat)
  (map JS.trim (JS.split_newline content)).

Definition render (v : JS.value) : string :=
match v with
| JS.Undefined => "undefined"
| JS.Str s => s
end.

Definition report_name (stamp : Z) : string :=
"sonic-report-" +:+ JS.toString stamp +:+ ".txt".

  (** [readdirSync('.').filter(f => f.startsWith('sonic-report-')).sort().reverse()] *)
Definition listReports (dir : list string) : list string :=
rev (JS.sort (List.filter (JS.startsWith "sonic-report-") dir)).

(** Dereference of the wallet object stored at position [k] of
    [this.wallets]; objects are shared, so every reader sees the
    mutations made through any other reference. *)
Definition wallet_at (k : nat) : M Wallet :=
  s <- get ;;
  match wallets s !! k with
  | Some w => ret w
  | None => throw (JS.mkTypeError "index")
  end.

(** [this.wallets[i]] for a numeric index: [undefined] out of range. *)
Definition wallets_get (i : Z) : M (option Wallet) :=
  s <- get ;;
  ret (if i <? 0 then None else wallets s !! Z.to_nat i).

(** Property read on a possibly [undefined] wallet. *)
Definition prop {A} (o : option Wallet) (field : string) (f : Wallet -> A)
  : M A :=
  match o with
  | Some w => ret (f w)
  | None => throw (JS.mkTypeError field)
  end.

(** [for (let i = from; i <= bound(); i++) body(i)], with at most
    [rounds] iterations. *)
Fixpoint for_upto (rounds : nat) (i : Z) (bound : M Z) (body : Z -> M unit)
  : M unit :=
  b <- bound ;;
  if i <=? b then
    match rounds with
    | O => pending
    | S n => body i ;;; for_upto n (i + 1) bound body
    end
  else ret tt.

Definition readFileSync (file : read_result) : M string :=
  match file with
  | FileContent c => ret c
  | ReadError cd msg => throw (JS.Error "Error" msg (Some cd))
  end.

(** The callback of [privateKeys.map] in [init]. *)
Definition loadKey (key : string) (i : nat) : M (option Wallet) :=
  match fromSecretKey W key with
  | Some kp =>
      ret (Some {| index := Z.of_nat i + 1;
                   keypair := kp;
                   publicKey := kp_publicKey kp;
                   tokenAccounts := ∅;
                   nftAccounts := ∅ |})
  | None =>
      emit (KeyError (Z.of_nat i + 1)) ;;;
      ret None
  end.

Definition init (file : read_result) : M bool :=
  try_catch
    (content <- readFileSync file ;;
     loaded <- map_indexed loadKey (privateKeys content) 0 ;;
     modify (set_wallets (omap id loaded)) ;;;
     s <- get ;;
     if (length (wallets s) =? 0)%nat
     then throw (JS.mkError "No valid wallets found")
     else
       emit (Loaded (Z.of_nat (length (wallets s)))) ;;;
       ret true)
    (fun error =>
       match JS.code error with
       | Some "ENOENT" => emit KeyFileMissing
       | _ => emit (InitError (JS.message error))
       end ;;;
       ret false).

(** One pass through the body of the [while (true)] of
    [settingsMenu]; [true] when the menu returns. *)
Definition settingsMenu_body : M bool :=
  choice <- question "Enter your choice (1-4): " ;;
  if String.eqb choice "1" then
    count <- question "Enter number of interactions: " ;;
    modify (fun s =>
      set_settings
        {| interactionCount := JS.or_default (JS.parseInt count) 3;
           interactionInterval := interactionInterval (settings s) |} s) ;;;
    emit SettingsUpdated ;;;
    question "Press Enter to continue..." ;;;
    ret false
  else if String.eqb choice "2" then
    interval <- question "Enter interval in minutes: " ;;
    modify (fun s =>
      set_settings
        {| interactionCount := interactionCount (settings s);
           interactionInterval := JS.or_default (JS.parseInt interval) 1 |} s) ;;;
    emit SettingsUpdated ;;;
    question "Press Enter to continue..." ;;;
    ret false
  else if String.eqb choice "3" then
    s <- get ;;
    emit (ShowSettings (interactionCount (settings s))
            (interactionInterval (settings s))) ;;;
    question "Press Enter to continue..." ;;;
    ret false
  else if String.eqb choice "4" then ret true
  else ret false.

(** [settingsMenu], with at most [rounds] passes of its loop. *)
Fixpoint settingsMenu (rounds : nat) : M unit :=
  match rounds with
  | O => pending
  | S n =>
      leave <- settingsMenu_body ;;
      if leave : bool then ret tt else settingsMenu n
  end.

Definition deployRow (d : DeploymentRecord) : list string :=
  [ toLocaleTimeString W (d_timestamp d);
    "#" +:+ JS.toString (d_walletIndex d);
    d_type d;
    substring 0 16 (d_address d) +:+ "..." ].

Definition interactionRow (i : InteractionRecord) : list string :=
  [ toLocaleTimeString W (i_timestamp i);
    "#" +:+ JS.toString (i_walletIndex i);
    i_type i;
    i_action i;
    render (i_result i) ].

Definition generateReport : M string :=
  s <- get ;;
  let deployTable :=
    renderTable W ["Time"; "Wallet #"; "Type"; "Address"]
      (map deployRow (deployments s)) in
  let interactionTable :=
    renderTable W ["Time"; "Wallet #"; "Type"; "Action"; "Result"]
      (map interactionRow (interactions s)) in
  generated <- now ;;
  let report :=
    newline +:+ "=== ONIXIA Sonic Deployment Report ===" +:+ newline
    +:+ newline +:+ "Deployments:" +:+ newline
    +:+ deployTable +:+ newline
    +:+ newline +:+ "Interactions:" +:+ newline
    +:+ interactionTable +:+ newline
    +:+ newline +:+ "Generated at: " +:+ toISOString W generated +:+ newline in
  stamp <- now ;;
  let filename := report_name stamp in
  modify (fun s => set_files (<[filename := report]> (files s)) s) ;;;
  emit (ReportSaved filename) ;;;
  ret report.

Definition readdirSync (s : State) : list string :=
  (map_to_list (files s)).*1.

Definition viewPreviousReports : M unit :=
  s <- get ;;
  let reports := listReports (readdirSync s) in
  if (length reports =? 0)%nat then
    emit NoReports ;;;
    question "Press Enter to return to main menu..." ;;;
    ret tt
  else
    forEach (fun '(i, report) => emit (ReportEntry (Z.of_nat i + 1) report))
      (imap (fun i r => (i, r)) reports) ;;;
    choice <- question "Select report number (or Enter to return): " ;;
    if String.eqb choice "" then ret tt
    else
      let selectedReport :=
        match JS.parseInt choice with
        | JS.Int z => if z - 1 <? 0 then None else reports !! Z.to_nat (z - 1)
        | JS.NaN => None
        end in
      match selectedReport with
      | Some name =>
          match files s !! name with
          | Some text =>
              emit (Print text) ;;;
              question "Press Enter to return to main menu..." ;;;
              ret tt
          | None =>
              throw (JS.Error "Error" "no such file or directory" (Some "ENOENT"))
          end
      | None => ret tt
      end.

End Program.

End Shared.

(** ** The token-only version *)

Module TokenOnly.
Import Shared.
Local Open Scope js_scope.

Section Program.
Context (W : World).

Definition deployToken (k : nat) : M Deployed :=
  wallet <- wallet_at k ;;
  emit (Creating "Token" (index wallet)) ;;;
  try_catch
    (mintKp <- newKeypair W ;;
     let mintKey := kp_publicKey mintKp in
     lamports <- chain W (GetMinimumBalanceForRentExemption 82)
                   getMinimumBalanceForRentExemption ;;
     chain W (CreateAndInitializeMint (publicKey wallet) mintKey 9)
       sendAndConfirmTransaction ;;;
     associatedTokenAccount <-
       chain W (GetAssociatedTokenAddress mintKey (publicKey wallet))
         getAssociatedTokenAddress ;;
     chain W (CreateAssociatedTokenAccount (publicKey wallet)
                associatedTokenAccount (publicKey wallet) mintKey)
       sendAndConfirmTransaction ;;;
     modify (tokenAccounts_set k mintKey
               {| mint := mintKey; account := associatedTokenAccount |}) ;;;
     emit (Created "Token" mintKey) ;;;
     ret {| address := mintKey;
            tokenAccount := Some associatedTokenAccount;
            metadata := None |})
    (fun error =>
       emit (CreateFailed "Token" (JS.message error)) ;;;
       throw error).

Definition performTokenInteraction (k : nat) (tokenData : Deployed)
    (action : string) : M JS.value :=
  wallet <- wallet_at k ;;
  match tokenAccounts wallet !! address tokenData with
  | None => throw (JS.mkError "Token not found")
  | Some tokenInfo =>
      let tokenMint := mint tokenInfo in
      let tokenAcct := account tokenInfo in
      if String.eqb action "mint" then
        try_catch
          (n <- random_below W 1000 ;;
           let amount := n + 1 in
           chain W (MintTo tokenMint tokenAcct (publicKey wallet) amount)
             sendAndConfirmTransaction ;;;
           ret (JS.Str ("Minted " +:+ JS.toString amount +:+ " tokens")))
          (fun error =>
             throw (JS.mkError ("Mint failed: " +:+ JS.message error)))
      else if String.eqb action "transfer" then
        try_catch
          (n <- random_below W 100 ;;
           let amount := n + 1 in
           s <- get ;;
           r <- random_below W (Z.of_nat (length (wallets s))) ;;
           randomWallet <- wallets_get r ;;
           destOwner <- prop randomWallet "publicKey" publicKey ;;
           destinationATA <-
             chain W (GetAssociatedTokenAddress tokenMint destOwner)
               getAssociatedTokenAddress ;;
           try_catch
             (chain W (GetAccount destinationATA) getAccount)
             (fun _ =>
                chain W (CreateAssociatedTokenAccount (publicKey wallet)
                           destinationATA destOwner tokenMint)
                  sendAndConfirmTransaction) ;;;
           chain W (Transfer tokenAcct destinationATA (publicKey wallet) amount)
             sendAndConfirmTransaction ;;;
           destIndex <- prop randomWallet "index" index ;;
           ret (JS.Str ("Transferred " +:+ JS.toString amount
                        +:+ " tokens to wallet #" +:+ JS.toString destIndex)))
          (fun error =>
             throw (JS.mkError ("Transfer failed: " +:+ JS.message error)))
      else if String.eqb action "burn" then
        try_catch
          (n <- random_below W 50 ;;
           let amount := n + 1 in
           chain W (Burn tokenAcct tokenMint (publicKey wallet) amount)
             sendAndConfirmTransaction ;;;
           ret (JS.Str ("Burned " +:+ JS.toString amount +:+ " tokens")))
          (fun error =>
             throw (JS.mkError ("Burn failed: " +:+ JS.message error)))
      else throw (JS.mkError ("Unknown action: " +:+ action))
  end.

(** Body of the interaction loop, iteration [i]. *)
Definition interaction (k : nat) (result : Deployed) (i : Z) : M unit :=
  r <- random_below W (Z.of_nat (length TOKEN_INTERACTIONS)) ;;
  let action := pick TOKEN_INTERACTIONS r in
  s <- get ;;
  emit (InteractionStart i (interactionCount (settings s)) action) ;;;
  try_catch
    (interactionResult <- performTokenInteraction k result action ;;
     emit (InteractionOk interactionResult) ;;;
     stamp <- now W ;;
     wallet <- wallet_at k ;;
     modify (push_interaction
               {| i_timestamp := stamp; i_walletIndex := index wallet;
                  i_type := "Token"; i_action := action;
                  i_result := interactionResult |}) ;;;
     s <- get ;;
     if i <? interactionCount (settings s)
     then emit (Sleep (interactionInterval (settings s) * 60 * 1000))
     else ret tt)
    (fun error => emit (InteractionFailed (JS.message error))).

Definition interactionLoop (rounds : nat) (k : nat) (result : Deployed)
  : M unit :=
  for_upto rounds 1
    (s <- get ;; ret (interactionCount (settings s)))
    (interaction k result).

(** Body of [for (const wallet of this.wallets)]. *)
Definition processWallet (rounds : nat) (k : nat) : M unit :=
  try_catch
    (wallet <- wallet_at k ;;
     emit (Processing (index wallet) (publicKey wallet)) ;;;
     balance <- chain W (GetBalance (publicKey wallet)) getBalance ;;
     emit (Balance balance) ;;;
     if balance <? MIN_BALANCE then emit Insufficient
     else
       result <- deployToken k ;;
       stamp <- now W ;;
       modify (push_deployment
                 {| d_timestamp := stamp; d_walletIndex := index wallet;
                    d_type := "Token"; d_address := address result |}) ;;;
       s <- get ;;
       emit (Starting (interactionCount (settings s))) ;;;
       interactionLoop rounds k result)
    (fun error =>
       emit (WalletError (JS.message error)) ;;;
       question W "Press Enter to continue with next wallet..." ;;;
       ret tt).

(** The wallets are visited by position, in load order. *)
Definition processWallets (rounds : nat) : M unit :=
  s <- get ;;
  forEach (processWallet rounds) (seq 0 (length (wallets s))).

(** [while (!continueToMenu)] after the run: M leaves, R regenerates. *)
Fixpoint reportLoop (rounds : nat) : M unit :=
  match rounds with
  | O => pending
  | S n =>
      answer <-
        question W "Press M to return to main menu, R to regenerate report: " ;;
      if String.eqb answer "m" || String.eqb answer "M" then ret tt
      else if String.eqb answer "r" || String.eqb answer "R" then
        report <- generateReport W ;;
        emit (Print report) ;;;
        reportLoop n
      else reportLoop n
  end.

Definition startDeployment (rounds : nat) : M unit :=
  choice <- question W "Enter your choice (1-2): " ;;
  if String.eqb choice "2" then ret tt
  else if negb (String.eqb choice "1") then
    emit Invalid ;;;
    question W "Press Enter to continue..." ;;;
    ret tt
  else
    try_catch
      (s <- get ;;
       emit (Deploying "Token" (interactionCount (settings s))) ;;;
       processWallets rounds ;;;
       emit Completed ;;;
       emit Generating ;;;
       report <- generateReport W ;;
       emit (Print report) ;;;
       reportLoop rounds)
      (fun error =>
         emit (RunError (JS.message error)) ;;;
         question W "Press Enter to return to main menu..." ;;;
         ret tt).

End Program.
End TokenOnly.

(** ** [src/deploy.js]: tokens and NFTs *)

Module DeployJs.
Import Shared.
Local Open Scope js_scope.

(** Names bound at module level: the imports, the constants and the
    declarations of the file.  [splToken] is a namespace import, so the
    functions of [@solana/spl-token] are reachable as its properties
    only. *)
Definition module_bindings : list string :=
  [ "Connection"; "PublicKey"; "Keypair"; "Transaction"; "SystemProgram";
    "sendAndConfirmTransaction"; "splToken"; "Metaplex"; "bs58"; "fs";
    "chalk"; "ora"; "Table"; "createInterface"; "fileURLToPath"; "dirname";
    "__filename"; "__dirname"; "SONIC_RPC"; "SONIC_EXPLORER";
    "PRIVATE_KEYS_FILE"; "ONIXIA_LOGO"; "TOKEN_INTERACTIONS";
    "NFT_INTERACTIONS"; "clearScreen"; "rl"; "question"; "SonicDeployer";
    "main" ].

Definition bound (ident : string) : bool :=
  existsb (String.eqb ident) module_bindings.

(** A call [ident(...)] through a bare identifier: the callee is
    resolved first, and an unbound name throws before anything else
    of the call is evaluated. *)
Definition call_ident {A} (ident : string) (callee : M A) : M A :=
  if bound ident then callee else throw (JS.mkReferenceError ident).

Section Program.
Context (W : World).

Definition deployToken (k : nat) : M Deployed :=
  wallet <- wallet_at k ;;
  emit (Creating "Token" (index wallet)) ;;;
  try_catch
    (mintAccount <- chain W (CreateMint (publicKey wallet) 9) createMint ;;
     tokenAcct <-
       chain W (GetOrCreateAssociatedTokenAccount mintAccount (publicKey wallet))
         getOrCreateAssociatedTokenAccount ;;
     modify (tokenAccounts_set k mintAccount
               {| mint := mintAccount; account := tokenAcct |}) ;;;
     emit (Created "Token" mintAccount) ;;;
     ret {| address := mintAccount;
            tokenAccount := Some tokenAcct;
            metadata := None |})
    (fun error =>
       emit (CreateFailed "Token" (JS.message error)) ;;;
       throw error).

(** The first of the two class members named
    [performTokenInteraction] (lines 152-200).  The later member of
    the same name replaces it when the class is evaluated, so no call
    reaches it. *)
Definition performTokenInteraction_replaced (k : nat) (tokenData : Deployed)
    (action : string) : M JS.value :=
  wallet <- wallet_at k ;;
  match tokenAccounts wallet !! address tokenData with
  | None => throw (JS.mkError "Token not found")
  | Some tokenInfo =>
      if String.eqb action "mint" then
        n <- random_below W 1000 ;;
        let amount := n + 1 in
        chain W (MintTo (mint tokenInfo) (account tokenInfo)
                   (publicKey wallet) amount) mintTo ;;;
        ret (JS.Str ("Minted " +:+ JS.toString amount +:+ " tokens"))
      else if String.eqb action "transfer" then
        n <- random_below W 100 ;;
        let transferAmount := n + 1 in
        s <- get ;;
        r <- random_below W (Z.of_nat (length (wallets s))) ;;
        randomWallet <- wallets_get r ;;
        destOwner <- prop randomWallet "publicKey" publicKey ;;
        destinationAccount <-
          chain W (GetOrCreateAssociatedTokenAccount (mint tokenInfo) destOwner)
            getOrCreateAssociatedTokenAccount ;;
        chain W (Transfer (account tokenInfo) destinationAccount
                   (publicKey wallet) transferAmount) transfer ;;;
        destIndex <- prop randomWallet "index" index ;;
        ret (JS.Str ("Transferred " +:+ JS.toString transferAmount
                     +:+ " tokens to wallet #" +:+ JS.toString destIndex))
      else if String.eqb action "burn" then
        n <- random_below W 50 ;;
        let burnAmount := n + 1 in
        chain W (Burn (account tokenInfo) (mint tokenInfo)
                   (publicKey wallet) burnAmount) burn ;;;
        ret (JS.Str ("Burned " +:+ JS.toString burnAmount +:+ " tokens"))
      else ret JS.Undefined
  end.

(** The member in force (lines 237-285): same text, but the SDK
    functions are called through bare identifiers. *)
Definition performTokenInteraction (k : nat) (tokenData : Deployed)
    (action : string) : M JS.value :=
  wallet <- wallet_at k ;;
  match tokenAccounts wallet !! address tokenData with
  | None => throw (JS.mkError "Token not found")
  | Some tokenInfo =>
      if String.eqb action "mint" then
        n <- random_below W 1000 ;;
        let amount := n + 1 in
        call_ident "mintTo"
          (chain W (MintTo (mint tokenInfo) (account tokenInfo)
                      (publicKey wallet) amount) mintTo) ;;;
        ret (JS.Str ("Minted " +:+ JS.toString amount +:+ " tokens"))
      else if String.eqb action "transfer" then
        n <- random_below W 100 ;;
        let transferAmount := n + 1 in
        s <- get ;;
        r <- random_below W (Z.of_nat (length (wallets s))) ;;
        randomWallet <- wallets_get r ;;
        destinationAccount <-
          call_ident "getOrCreateAssociatedTokenAccount"
            (destOwner <- prop randomWallet "publicKey" publicKey ;;
             chain W (GetOrCreateAssociatedTokenAccount (mint tokenInfo) destOwner)
               getOrCreateAssociatedTokenAccount) ;;
        call_ident "transfer"
          (chain W (Transfer (account tokenInfo) destinationAccount
                      (publicKey wallet) transferAmount) transfer) ;;;
        destIndex <- prop randomWallet "index" index ;;
        ret (JS.Str ("Transferred " +:+ JS.toString transferAmount
                     +:+ " tokens to wallet #" +:+ JS.toString destIndex))
      else if String.eqb action "burn" then
        n <- random_below W 50 ;;
        let burnAmount := n + 1 in
        call_ident "burn"
          (chain W (Burn (account tokenInfo) (mint tokenInfo)
                      (publicKey wallet) burnAmount) burn) ;;;
        ret (JS.Str ("Burned " +:+ JS.toString burnAmount +:+ " tokens"))
      else ret JS.Undefined
  end.

Definition deployNFT (k : nat) : M Deployed :=
  wallet <- wallet_at k ;;
  emit (Creating "NFT" (index wallet)) ;;;
  try_catch
    (stamp <- now W ;;
     let name := "ONIXIA NFT #" +:+ JS.toString stamp in
     nft <- chain W (NftCreate name None) nftCreate ;;
     modify (nftAccounts_set k (nft_address nft) nft) ;;;
     emit (Created "NFT" (nft_address nft)) ;;;
     ret {| address := nft_address nft;
            tokenAccount := None;
            metadata := Some (nft_metadataAddress nft) |})
    (fun error =>
       emit (CreateFailed "NFT" (JS.message error)) ;;;
       throw error).

Definition performNFTInteraction (k : nat) (nftData : Deployed)
    (action : string) : M JS.value :=
  wallet <- wallet_at k ;;
  match nftAccounts wallet !! address nftData with
  | None => throw (JS.mkError "NFT not found")
  | Some nft =>
      if String.eqb action "mint" then
        stamp <- now W ;;
        newNFT <-
          chain W (NftCreate (nft_name nft +:+ " #" +:+ JS.toString stamp)
                     (Some (nft_address nft))) nftCreate ;;
        ret (JS.Str ("Minted new NFT: " +:+ nft_address newNFT))
      else if String.eqb action "transfer" then
        s <- get ;;
        r <- random_below W (Z.of_nat (length (wallets s))) ;;
        randomWallet <- wallets_get r ;;
        toOwner <- prop randomWallet "publicKey" publicKey ;;
        chain W (NftTransfer (nft_address nft) (publicKey wallet) toOwner)
          nftTransfer ;;;
        destIndex <- prop randomWallet "index" index ;;
        ret (JS.Str ("Transferred NFT to wallet #" +:+ JS.toString destIndex))
      else if String.eqb action "updateMetadata" then
        stamp <- now W ;;
        chain W (NftUpdate (nft_address nft)
                   (nft_name nft +:+ " Updated " +:+ JS.toString stamp))
          nftUpdate ;;;
        ret (JS.Str "Updated NFT metadata")
      else ret JS.Undefined
  end.

(** Body of the interaction loop, iteration [i]; [token] is
    [choice === '1']. *)
Definition interaction (token : bool) (k : nat) (result : Deployed) (i : Z)
  : M unit :=
  let contractType := if token then "Token" else "NFT" in
  let interactions := if token then TOKEN_INTERACTIONS else NFT_INTERACTIONS in
  r <- random_below W (Z.of_nat (length interactions)) ;;
  let action := pick interactions r in
  s <- get ;;
  emit (InteractionStart i (interactionCount (settings s)) action) ;;;
  try_catch
    (interactionResult <-
       (if token then performTokenInteraction k result action
        else performNFTInteraction k result action) ;;
     emit (InteractionOk interactionResult) ;;;
     stamp <- now W ;;
     wallet <- wallet_at k ;;
     modify (push_interaction
               {| i_timestamp := stamp; i_walletIndex := index wallet;
                  i_type := contractType; i_action := action;
                  i_result := interactionResult |}) ;;;
     (* Wait for interval unless it's the last interaction *)
     s <- get ;;
     if i <? interactionCount (settings s)
     then emit (Sleep (interactionInterval (settings s) * 60 * 1000))
     else ret tt)
    (fun error => emit (InteractionFailed (JS.message error))).

Definition interactionLoop (rounds : nat) (token : bool) (k : nat)
    (result : Deployed) : M unit :=
  for_upto rounds 1
    (s <- get ;; ret (interactionCount (settings s)))
    (interaction token k result).

(** Body of [for (const wallet of this.wallets)]. *)
Definition processWallet (rounds : nat) (token : bool) (k : nat) : M unit :=
  let contractType := if token then "Token" else "NFT" in
  try_catch
    (wallet <- wallet_at k ;;
     emit (Processing (index wallet) (publicKey wallet)) ;;;
     balance <- chain W (GetBalance (publicKey wallet)) getBalance ;;
     emit (Balance balance) ;;;
     if balance <? MIN_BALANCE then emit Insufficient
     else
       result <- (if token then deployToken k else deployNFT k) ;;
       stamp <- now W ;;
       modify (push_deployment
                 {| d_timestamp := stamp; d_walletIndex := index wallet;
                    d_type := contractType; d_address := address result |}) ;;;
       s <- get ;;
       emit (Starting (interactionCount (settings s))) ;;;
       interactionLoop rounds token k result)
    (fun error =>
       emit (WalletError (JS.message error)) ;;;
       question W "Press Enter to continue with next wallet..." ;;;
       ret tt).

Definition processWallets (rounds : nat) (token : bool) : M unit :=
  s <- get ;;
  forEach (processWallet rounds token) (seq 0 (length (wallets s))).

Definition startDeployment (rounds : nat) : M unit :=
  choice <- question W "Enter your choice (1-3): " ;;
  if String.eqb choice "3" then ret tt
  else
    let token := String.eqb choice "1" in
    try_catch
      (s <- get ;;
       emit (Deploying (if token then "Token" else "NFT")
               (interactionCount (settings s))) ;;;
       processWallets rounds token ;;;
       emit Completed ;;;
       emit Generating ;;;
       generateReport W ;;;
       question W "Press Enter to return to main menu..." ;;;
       ret tt)
      (fun error =>
         emit (RunError (JS.message error)) ;;;
         question W "Press Enter to return to main menu..." ;;;
         ret tt).

End Program.
End DeployJs.

(** ** The balance table, the main menu and the entry point

    [showAllBalances], [displayMenu] and [main] have the same text in
    both versions; [displayMenu] reaches the [startDeployment] of its own
    version through [this]. *)

Module Menu.
Import Shared.
Local Open Scope js_scope.

(** How the process stands when [main] is done with it. *)
Inductive outcome :=
| Exit (code : Z)      (* [process.exit(code)] *)
| Returned             (* the promise of [main()] resolved *)
| Unfinished.          (* still inside a menu loop *)

Section Program.
Context (W : World).
(** [`${(balance / 1e9).toFixed(4)} SOL`]: the text of an amount of
    lamports; the division and the rounding are the platform's. *)
Context (solText : Z -> string).
(** [this.startDeployment()], with the rounds granted to its loops. *)
Context (startDeployment : nat -> M unit).

(** The row pushed for a wallet. *)
Definition balanceRow (wallet : Wallet) (balance : Z) : list string :=
  [ JS.toString (index wallet); publicKey wallet; solText balance ].

(** [for (const wallet of this.wallets) { ...; table.push(row) }] *)
Fixpoint balanceRows (ws : list Wallet) : M (list (list string)) :=
  match ws with
  | [] => ret []
  | wallet :: r =>
      balance <- chain W (GetBalance (publicKey wallet)) getBalance ;;
      rows <- balanceRows r ;;
      ret (balanceRow wallet balance :: rows)
  end.

Definition showAllBalances : M unit :=
  s <- get ;;
  rows <- balanceRows (wallets s) ;;
  emit (Print (renderTable W ["#"; "Wallet Address"; "Balance"] rows)) ;;;
  question W "Press Enter to return to main menu..." ;;;
  ret tt.

(** [displayMenu], with at most [rounds] passes of its [while (true)];
    the loops of the functions it calls are granted [inner] rounds. *)
Fixpoint displayMenu (inner rounds : nat) : M unit :=
  match rounds with
  | O => pending
  | S n =>
      choice <- question W "Enter your choice (1-5): " ;;
      if String.eqb choice "1" then
        showAllBalances ;;; displayMenu inner n
      else if String.eqb choice "2" then
        startDeployment inner ;;; displayMenu inner n
      else if String.eqb choice "3" then
        settingsMenu W inner ;;; displayMenu inner n
      else if String.eqb choice "4" then
        viewPreviousReports W ;;; displayMenu inner n
      else if String.eqb choice "5" then
        emit (Print "Thank you for using ONIXIA Sonic Deployer!")
      else
        emit Invalid ;;;
        emit (Sleep 1000) ;;;
        displayMenu inner n
  end.

(** The body of [main]: [true] when the menu was left through Exit,
    [false] when [init] failed. *)
Definition main_body (file : read_result) (inner rounds : nat) : M bool :=
  loaded <- init W file ;;
  if loaded : bool then
    displayMenu inner rounds ;;;
    ret true
  else
    emit (Print "Initialization failed. Please check your configuration.") ;;;
    ret false.

(** [main().catch(...)] started in directory [dir] with the key file
    reading as [file]. *)
Definition main (file : read_result) (dir : gmap string string)
    (inner rounds : nat) : outcome * State * list event :=
  match main_body file inner rounds (constructor dir) with
  | (Ret true, s, t) => (Returned, s, t)
  | (Ret false, s, t) => (Exit 1, s, t)
  | (Throw error, s, t) => (Exit 1, s, t ++ [RunError (JS.message error)])
  | (Pending, s, t) => (Unfinished, s, t)
  end.

End Program.
End Menu.


(** ** Observations on traces and states *)

Module Obs.
Import Shared.

Definition is_start (e : event) : bool :=
  match e with InteractionStart _ _ _ => true | _ => false end.
Definition is_ok (e : event) : bool :=
  match e with InteractionOk _ => true | _ => false end.
Definition is_failed (e : event) : bool :=
  match e with InteractionFailed _ => true | _ => false end.
Definition is_sleep (e : event) : bool :=
  match e with Sleep _ => true | _ => false end.
Definition is_call (e : event) : bool :=
  match e with Call _ => true | _ => false end.

Definition is_created (e : event) : bool :=
  match e with Created _ _ => true | _ => false end.
Definition is_create_failed (e : event) : bool :=
  match e with CreateFailed _ _ => true | _ => false end.

(** The deployment of the pass succeeded / failed: the spinner of
    [deployToken] or [deployNFT] reported so. *)
Definition deploy_succeeded (t : list event) : bool := existsb is_created t.
Definition deploy_failed (t : list event) : bool := existsb is_create_failed t.

(** Interaction attempts begun, succeeded and failed in a trace, and
    the pauses taken. *)
Definition attempts (t : list event) : nat := length (List.filter is_start t).
Definition successes (t : list event) : nat := length (List.filter is_ok t).
Definition failures (t : list event) : nat := length (List.filter is_failed t).
Definition pauses (t : list event) : nat := length (List.filter is_sleep t).

(** The deployer object and the directory are as before; only oracle
    cursors may have moved. *)
Definition same_self (s s' : State) : Prop :=
  wallets s' = wallets s /\ deployments s' = deployments s /\
  interactions s' = interactions s /\ settings s' = settings s /\
  files s' = files s.

(** The wallets are the same identities, in the same order. *)
Definition same_identities (s s' : State) : Prop :=
  map index (wallets s') = map index (wallets s)
  /\ map publicKey (wallets s') = map publicKey (wallets s).

(** The trace of a pass that opens by announcing the wallet at position
    [k] of [s], by index and address. *)
Definition announces (s : State) (k : nat) (t : list event) : Prop :=
  exists i pk t0,
    map index (wallets s) !! k = Some i
    /\ map publicKey (wallets s) !! k = Some pk
    /\ t = Processing i pk :: t0.

(** A computation that only talks to the oracles: it ends (returns or
    throws), leaves the deployer as it was and outputs nothing but
    calls. *)
Definition quiet {A} (m : M A) : Prop :=
  forall s,
    run_result (m s) <> Pending /\
    same_self s (run_state (m s)) /\
    List.forallb is_call (run_trace (m s)) = true.

(** What the per-wallet pass relies on from a deployer run for the
    wallet at position [k]: it ends, touches nothing but that wallet's
    maps (and only on success), begins no interaction, and reports its
    outcome through the spinner. *)
Definition deploy_sound (deploy : M Deployed) (k : nat) : Prop :=
  forall s w, wallets s !! k = Some w ->
    exists r s1 t1,
      deploy s = (r, s1, t1)
      /\ settings s1 = settings s /\ deployments s1 = deployments s
      /\ interactions s1 = interactions s /\ files s1 = files s
      /\ same_identities s s1
      /\ attempts t1 = 0%nat /\ successes t1 = 0%nat
      /\ failures t1 = 0%nat /\ pauses t1 = 0%nat
      /\ match r with
         | Ret d =>
             (exists w', wallets s1 !! k = Some w' /\ index w' = index w)
             /\ deploy_succeeded t1 = true /\ deploy_failed t1 = false
         | Throw e =>
             wallets s1 = wallets s
             /\ deploy_succeeded t1 = false /\ deploy_failed t1 = true
         | Pending => False
         end.

(** The loop body and the per-wallet pass have the same text in both
    versions; these are the common shapes, over the interaction
    handler and the deployer of the version. *)
Section Shapes.
Context (W : World).
Local Open Scope js_scope.

Definition iteration (perform : string -> M JS.value)
    (contractType : string) (acts : list string) (k : nat) (i : Z)
  : M unit :=
  r <- random_below W (Z.of_nat (length acts)) ;;
  let action := pick acts r in
  s <- get ;;
  emit (InteractionStart i (interactionCount (settings s)) action) ;;;
  try_catch
    (interactionResult <- perform action ;;
     emit (InteractionOk interactionResult) ;;;
     stamp <- now W ;;
     wallet <- wallet_at k ;;
     modify (push_interaction
               {| i_timestamp := stamp; i_walletIndex := index wallet;
                  i_type := contractType; i_action := action;
                  i_result := interactionResult |}) ;;;
     s <- get ;;
     if i <? interactionCount (settings s)
     then emit (Sleep (interactionInterval (settings s) * 60 * 1000))
     else ret tt)
    (fun error => emit (InteractionFailed (JS.message error))).

Definition wallet_pass (deploy : M Deployed) (loop : Deployed -> M unit)
    (contractType : string) (k : nat) : M unit :=
  try_catch
    (wallet <- wallet_at k ;;
     emit (Processing (index wallet) (publicKey wallet)) ;;;
     balance <- chain W (GetBalance (publicKey wallet)) getBalance ;;
     emit (Balance balance) ;;;
     if balance <? MIN_BALANCE then emit Insufficient
     else
       result <- deploy ;;
       stamp <- now W ;;
       modify (push_deployment
                 {| d_timestamp := stamp; d_walletIndex := index wallet;
                    d_type := contractType; d_address := address result |}) ;;;
       s <- get ;;
       emit (Starting (interactionCount (settings s))) ;;;
       loop result)
    (fun error =>
       emit (WalletError (JS.message error)) ;;;
       question W "Press Enter to continue with next wallet..." ;;;
       ret tt).

(** The loop condition reads the count afresh on every test. *)
Definition count_now : M Z :=
  s <- get ;; ret (interactionCount (settings s)).

(** The action drawn at the head of an iteration started in [s]. *)
Definition drawn (acts : list string) (s : State) : string :=
  pick acts (JS.floor_scaled (random W (rnd s)) (Z.of_nat (length acts))).

End Shapes.




(** A key the SDK accepts. *)
Definition valid (W : World) (key : string) : bool :=
  match fromSecretKey W key with Some _ => true | None => false end.

(** Positions, counted from [i], of the elements that satisfy [p]. *)
Fixpoint positions {A} (p : A -> bool) (l : list A) (i : nat) : list nat :=
  match l with
  | [] => []
  | x :: r => if p x then i :: positions p r (S i) else positions p r (S i)
  end.





(** Line number, from 1, of the key at position [j]. *)
Definition line_number (j : nat) : Z := Z.of_nat j + 1.

(** The two versions of the tool; [token] is [choice === '1'] of the
    deploy menu of [deploy.js]. *)
Inductive version :=
| TokenOnlyVersion
| DeployJsVersion (token : bool).

Definition processWallet (v : version) (W : World) (rounds k : nat) : M unit :=
  match v with
  | TokenOnlyVersion => TokenOnly.processWallet W rounds k
  | DeployJsVersion token => DeployJs.processWallet W rounds token k
  end.

Definition processWallets (v : version) (W : World) (rounds : nat) : M unit :=
  match v with
  | TokenOnlyVersion => TokenOnly.processWallets W rounds
  | DeployJsVersion token => DeployJs.processWallets W rounds token
  end.

Definition interaction (v : version) (W : World) (k : nat)
    (result : Deployed) (i : Z) : M unit :=
  match v with
  | TokenOnlyVersion => TokenOnly.interaction W k result i
  | DeployJsVersion token => DeployJs.interaction W token k result i
  end.

(** The handler an iteration of the version calls. *)
Definition handler (v : version) (W : World) (k : nat)
    (result : Deployed) (action : string) : M JS.value :=
  match v with
  | TokenOnlyVersion => TokenOnly.performTokenInteraction W k result action
  | DeployJsVersion true => DeployJs.performTokenInteraction W k result action
  | DeployJsVersion false => DeployJs.performNFTInteraction W k result action
  end.

(** The action set an iteration of the version draws from. *)
Definition actions (v : version) : list string :=
  match v with
  | DeployJsVersion false => NFT_INTERACTIONS
  | _ => TOKEN_INTERACTIONS
  end.

End Obs.

(** ** Sample worlds and states, for running the embedding *)

Module Sample.
Import Shared.

Definition base58 : string :=
  "123456789ABCDEFGHJKLMNPQRSTUVWXYZabcdefghijkmnopqrstuvwxyz".

Fixpoint all_in (alphabet s : string) : bool :=
  match s with
  | EmptyString => true
  | String c r =>
      existsb (Ascii.eqb c) (list_ascii_of_string alphabet) && all_in alphabet r
  end.

(** Stand-in for the key check of the SDK: a key is accepted when it is
    written in the base-58 alphabet. *)
Definition decode (key : string) : option Keypair :=
  if all_in base58 key
  then Some {| secretKey := key; kp_publicKey := "pk" +:+ key |}
  else None.

Definition table (head : list string) (rows : list (list string)) : string :=
  String.concat newline (map (String.concat " | ") (head :: rows)).

Definition ok {A} (a : A) : nat -> reply A := fun _ => Resolved a.
Definition down {A} : nat -> reply A :=
  fun _ => Rejected (JS.mkError "blockhash not found").

(** A chain that accepts everything; the draws cycle through thirds. *)
Definition calm : World :=
  {| fromSecretKey := decode;
     renderTable := table;
     toLocaleTimeString := JS.toString;
     toISOString := JS.toString;
     random := fun n => JS.Draw (N.of_nat (n mod 3)) (N.of_nat (2 - n mod 3));
     clock := fun n => 1700000000000 + Z.of_nat n;
     answer := fun _ => "1";
     getBalance := ok 2000000000;
     getMinimumBalanceForRentExemption := ok 1461600;
     generateKeypair := fun n => {| secretKey := "sk"; kp_publicKey := "Mint" +:+ JS.toString (Z.of_nat n) |};
     sendAndConfirmTransaction := ok tt;
     getAssociatedTokenAddress := ok "Ata";
     getAccount := ok tt;
     createMint := ok "Mint";
     getOrCreateAssociatedTokenAccount := ok "Ata";
     mintTo := ok tt;
     transfer := ok tt;
     burn := ok tt;
     nftCreate := ok {| nft_address := "Nft"; nft_name := "ONIXIA NFT";
                        nft_uri := ""; nft_sellerFeeBasisPoints := 500;
                        nft_metadataAddress := "Meta" |};
     nftTransfer := ok tt;
     nftUpdate := ok tt |}.

(** The same world with other replies to submissions. *)
Definition with_send (f : nat -> reply unit) (W : World) : World :=
  {| fromSecretKey := fromSecretKey W; renderTable := renderTable W;
     toLocaleTimeString := toLocaleTimeString W; toISOString := toISOString W;
     random := random W; clock := clock W; answer := answer W;
     getBalance := getBalance W;
     getMinimumBalanceForRentExemption := getMinimumBalanceForRentExemption W;
     generateKeypair := generateKeypair W;
     sendAndConfirmTransaction := f;
     getAssociatedTokenAddress := getAssociatedTokenAddress W;
     getAccount := getAccount W;
     createMint := createMint W;
     getOrCreateAssociatedTokenAccount := getOrCreateAssociatedTokenAccount W;
     mintTo := mintTo W; transfer := transfer W; burn := burn W;
     nftCreate := nftCreate W; nftTransfer := nftTransfer W;
     nftUpdate := nftUpdate W |}.

(** The same world with other replies to [createMint]. *)
Definition with_createMint (f : nat -> reply string) (W : World) : World :=
  {| fromSecretKey := fromSecretKey W; renderTable := renderTable W;
     toLocaleTimeString := toLocaleTimeString W; toISOString := toISOString W;
     random := random W; clock := clock W; answer := answer W;
     getBalance := getBalance W;
     getMinimumBalanceForRentExemption := getMinimumBalanceForRentExemption W;
     generateKeypair := generateKeypair W;
     sendAndConfirmTransaction := sendAndConfirmTransaction W;
     getAssociatedTokenAddress := getAssociatedTokenAddress W;
     getAccount := getAccount W;
     createMint := f;
     getOrCreateAssociatedTokenAccount := getOrCreateAssociatedTokenAccount W;
     mintTo := mintTo W; transfer := transfer W; burn := burn W;
     nftCreate := nftCreate W; nftTransfer := nftTransfer W;
     nftUpdate := nftUpdate W |}.

(** The deployment goes through (chain calls 0 to 5); afterwards the
    submissions at even positions are refused. *)
Definition flaky : World :=
  with_send (fun n => if (n <? 6)%nat || Nat.odd n then Resolved tt
                      else Rejected (JS.mkError "blockhash not found")) calm.

(** Nothing can be submitted or created. *)
Definition offline : World :=
  with_createMint down (with_send down calm).


(** The same world in which every draw is 2/3. *)
Definition high_draws (W : World) : World :=
  {| fromSecretKey := fromSecretKey W; renderTable := renderTable W;
     toLocaleTimeString := toLocaleTimeString W; toISOString := toISOString W;
     random := fun _ => JS.Draw 2 0; clock := clock W; answer := answer W;
     getBalance := getBalance W;
     getMinimumBalanceForRentExemption := getMinimumBalanceForRentExemption W;
     generateKeypair := generateKeypair W;
     sendAndConfirmTransaction := sendAndConfirmTransaction W;
     getAssociatedTokenAddress := getAssociatedTokenAddress W;
     getAccount := getAccount W;
     createMint := createMint W;
     getOrCreateAssociatedTokenAccount := getOrCreateAssociatedTokenAccount W;
     mintTo := mintTo W; transfer := transfer W; burn := burn W;
     nftCreate := nftCreate W; nftTransfer := nftTransfer W;
     nftUpdate := nftUpdate W |}.

(** The same world with an operator who types the given lines, then
    keeps pressing Enter. *)
Definition typing (lines : list string) (W : World) : World :=
  {| fromSecretKey := fromSecretKey W; renderTable := renderTable W;
     toLocaleTimeString := toLocaleTimeString W; toISOString := toISOString W;
     random := random W; clock := clock W;
     answer := fun n => nth n lines "";
     getBalance := getBalance W;
     getMinimumBalanceForRentExemption := getMinimumBalanceForRentExemption W;
     generateKeypair := generateKeypair W;
     sendAndConfirmTransaction := sendAndConfirmTransaction W;
     getAssociatedTokenAddress := getAssociatedTokenAddress W;
     getAccount := getAccount W;
     createMint := createMint W;
     getOrCreateAssociatedTokenAccount := getOrCreateAssociatedTokenAccount W;
     mintTo := mintTo W; transfer := transfer W; burn := burn W;
     nftCreate := nftCreate W; nftTransfer := nftTransfer W;
     nftUpdate := nftUpdate W |}.


Definition wallet (i : Z) (key : string) : Wallet :=
  {| index := i;
     keypair := {| secretKey := key; kp_publicKey := "pk" +:+ key |};
     publicKey := "pk" +:+ key;
     tokenAccounts := ∅;
     nftAccounts := ∅ |}.

(** Three loaded wallets, default settings, empty directory. *)
Definition loaded : State :=
  set_wallets [wallet 1 "A"; wallet 2 "B"; wallet 3 "C"] (constructor ∅).

(** The wallets once wallet #1 has deployed the token [Mint]. *)
Definition token_deployed : State :=
  tokenAccounts_set 0 "Mint" {| mint := "Mint"; account := "Ata" |} loaded.

Definition Mint : Deployed :=
  {| address := "Mint"; tokenAccount := Some "Ata"; metadata := None |}.

(** The wallets once wallet #1 has deployed the NFT [Nft]. *)
Definition nft_deployed : State :=
  nftAccounts_set 0 "Nft"
    {| nft_address := "Nft"; nft_name := "ONIXIA NFT"; nft_uri := "";
       nft_sellerFeeBasisPoints := 500; nft_metadataAddress := "Meta" |} loaded.

Definition TheNft : Deployed :=
  {| address := "Nft"; tokenAccount := None; metadata := Some "Meta" |}.

Definition with_count (count interval : Z) (s : State) : State :=
  set_settings {| interactionCount := count; interactionInterval := interval |} s.

End Sample.

(** ** Further observations *)

Module Cover.
Import Shared Obs.

(** The deployer a pass of the version calls, and the asset kind it
    reports. *)
Definition deployer (v : version) (W : World) (k : nat) : M Deployed :=
  match v with
  | TokenOnlyVersion => TokenOnly.deployToken W k
  | DeployJsVersion true => DeployJs.deployToken W k
  | DeployJsVersion false => DeployJs.deployNFT W k
  end.

Definition kind (v : version) : string :=
  match v with
  | DeployJsVersion false => "NFT"
  | _ => "Token"
  end.

(** The wallet holds the asset [d] under its address, as the deployer
    of the version registers it. *)
Definition holds_asset (v : version) (w : Wallet) (d : Deployed) : Prop :=
  match v with
  | DeployJsVersion false =>
      exists nft, nftAccounts w !! address d = Some nft
                  /\ nft_address nft = address d
                  /\ metadata d = Some (nft_metadataAddress nft)
  | _ =>
      exists acct, tokenAccounts w !! address d
                   = Some {| mint := address d; account := acct |}
                   /\ tokenAccount d = Some acct
  end.

(** The word that opens the message of a failed token action. *)
Definition failure_label (action : string) : string :=
  if String.eqb action "mint" then "Mint"
  else if String.eqb action "transfer" then "Transfer"
  else "Burn".



End Cover.

(** ** Further sample worlds and states *)

Module Scenario.
Import Shared.

(** Wallet #1 once it holds the token [Mint]. *)
Definition holder : Wallet :=
  {| index := 1; keypair := keypair (Sample.wallet 1 "A"); publicKey := "pkA";
     tokenAccounts := <["Mint" := {| mint := "Mint"; account := "Ata" |}]> ∅;
     nftAccounts := ∅ |}.

Definition the_nft : Nft :=
  {| nft_address := "Nft"; nft_name := "ONIXIA NFT"; nft_uri := "";
     nft_sellerFeeBasisPoints := 500; nft_metadataAddress := "Meta" |}.

(** Wallet #1 once it holds the NFT [Nft]. *)
Definition collector : Wallet :=
  {| index := 1; keypair := keypair (Sample.wallet 1 "A"); publicKey := "pkA";
     tokenAccounts := ∅;
     nftAccounts := <["Nft" := the_nft]> ∅ |}.

(** The same world with other replies to balance queries. *)
Definition with_balance (f : nat -> reply Z) (W : World) : World :=
  {| fromSecretKey := fromSecretKey W; renderTable := renderTable W;
     toLocaleTimeString := toLocaleTimeString W; toISOString := toISOString W;
     random := random W; clock := clock W; answer := answer W;
     getBalance := f;
     getMinimumBalanceForRentExemption := getMinimumBalanceForRentExemption W;
     generateKeypair := generateKeypair W;
     sendAndConfirmTransaction := sendAndConfirmTransaction W;
     getAssociatedTokenAddress := getAssociatedTokenAddress W;
     getAccount := getAccount W;
     createMint := createMint W;
     getOrCreateAssociatedTokenAccount := getOrCreateAssociatedTokenAccount W;
     mintTo := mintTo W; transfer := transfer W; burn := burn W;
     nftCreate := nftCreate W; nftTransfer := nftTransfer W;
     nftUpdate := nftUpdate W |}.


(** Every wallet holds 0.05 SOL. *)
Definition poor : World := with_balance (Sample.ok 50000000) Sample.calm.

(** Every wallet holds exactly 0.1 SOL. *)
Definition at_threshold : World := with_balance (Sample.ok 100000000) Sample.calm.

(** Balance queries fail. *)
Definition unreachable : World := with_balance Sample.down Sample.calm.


(** Stand-in for the formatting of an amount: whole lamports. *)
Definition lamportsText (lamports : Z) : string :=
  JS.toString lamports +:+ " lamports".


End Scenario.

(** * Properties *)

Import Shared Obs.
Local Open Scope js_scope.

(** ** The effect monad *)

Lemma run_bind_ret {A B} (m : M A) (f : A -> M B) s a s1 t1 :
  m s = (Ret a, s1, t1) ->
  bind m f s = (run_result (f a s1), run_state (f a s1), t1 ++ run_trace (f a s1)).
Proof.
  intros H. unfold bind. rewrite H. destruct (f a s1) as [[r s2] t2]. reflexivity.
Qed.

Lemma run_bind_throw {A B} (m : M A) (f : A -> M B) s e s1 t1 :
  m s = (Throw e, s1, t1) -> bind m f s = (Throw e, s1, t1).
Proof. intros H. unfold bind. rewrite H. reflexivity. Qed.

Lemma bind_ret_eq {A B} (m : M A) (f : A -> M B) s a s1 t1 r s2 t2 :
  m s = (Ret a, s1, t1) -> f a s1 = (r, s2, t2) ->
  bind m f s = (r, s2, t1 ++ t2).
Proof. intros H1 H2. unfold bind. rewrite H1, H2. reflexivity. Qed.

Lemma try_ret_eq {A} (m : M A) (h : JS.error -> M A) s a s1 t1 :
  m s = (Ret a, s1, t1) -> try_catch m h s = (Ret a, s1, t1).
Proof. intros H. unfold try_catch. rewrite H. reflexivity. Qed.

Lemma try_throw_eq {A} (m : M A) (h : JS.error -> M A) s e s1 t1 r s2 t2 :
  m s = (Throw e, s1, t1) -> h e s1 = (r, s2, t2) ->
  try_catch m h s = (r, s2, t1 ++ t2).
Proof. intros H1 H2. unfold try_catch. rewrite H1, H2. reflexivity. Qed.

Lemma chain_resolved {A} W rq (oracle : World -> nat -> reply A) s a :
  oracle W (net s) = Resolved a ->
  chain W rq oracle s = (Ret a, set_net (S (net s)) s, [Call rq]).
Proof. intros H. unfold chain. rewrite H. reflexivity. Qed.

Lemma chain_rejected {A} W rq (oracle : World -> nat -> reply A) s e :
  oracle W (net s) = Rejected e ->
  chain W rq oracle s = (Throw e, set_net (S (net s)) s, [Call rq]).
Proof. intros H. unfold chain. rewrite H. reflexivity. Qed.

Lemma wallet_at_some k s w :
  wallets s !! k = Some w -> wallet_at k s = (Ret w, s, []).
Proof. intros H. unfold wallet_at, bind, get. cbn. rewrite H. reflexivity. Qed.

(** One step of a run: the head of a [bind] returns, by computation or
    by a fact at hand. *)
Ltac step :=
  eapply bind_ret_eq; [ solve [ eassumption | reflexivity ] | ]; cbv beta.

(** ** C10: a token that the wallet never deployed *)

(** C10. In both versions, [performTokenInteraction] on a wallet whose
    [tokenAccounts] map has no entry for the given asset address throws
    [Error('Token not found')] for every action; nothing is drawn from
    the random source, no request leaves for the chain, and the state
    (wallet maps, deployment and interaction logs, oracle cursors) is the
    one it started from. *)
Theorem token_not_found_before_any_effect
    (W : World) (s : State) (k : nat) (w : Wallet) (tokenData : Deployed)
    (action : string) :
  wallets s !! k = Some w ->
  tokenAccounts w !! address tokenData = None ->
  TokenOnly.performTokenInteraction W k tokenData action s
    = (Throw (JS.mkError "Token not found"), s, [])
  /\ DeployJs.performTokenInteraction W k tokenData action s
    = (Throw (JS.mkError "Token not found"), s, []).
Proof.
  intros Hk Hnone.
  unfold TokenOnly.performTokenInteraction, DeployJs.performTokenInteraction.
  unfold bind, wallet_at, get. cbn. rewrite Hk. cbn. rewrite Hnone.
  split; reflexivity.
Qed.

(** Wallet #2 never deployed the token that wallet #1 created. *)
Lemma token_not_found_before_any_effect_witness :
  TokenOnly.performTokenInteraction Sample.calm 1 Sample.Mint "burn" Sample.token_deployed
    = (Throw (JS.mkError "Token not found"), Sample.token_deployed, [])
  /\ DeployJs.performTokenInteraction Sample.calm 1 Sample.Mint "burn" Sample.token_deployed
    = (Throw (JS.mkError "Token not found"), Sample.token_deployed, []).
Proof.
  exact (token_not_found_before_any_effect Sample.calm Sample.token_deployed 1
           (Sample.wallet 2 "B") Sample.Mint "burn" eq_refl eq_refl).
Defined.

(** ** Computations that only consult oracles *)

Lemma same_self_refl s : same_self s s.
Proof. repeat split. Qed.

Lemma same_self_trans s1 s2 s3 :
  same_self s1 s2 -> same_self s2 s3 -> same_self s1 s3.
Proof.
  unfold same_self. intros (a1 & a2 & a3 & a4 & a5) (b1 & b2 & b3 & b4 & b5).
  repeat split; congruence.
Qed.

Lemma forallb_app_true {A} (p : A -> bool) (l1 l2 : list A) :
  List.forallb p l1 = true -> List.forallb p l2 = true ->
  List.forallb p (l1 ++ l2) = true.
Proof. intros H1 H2. rewrite List.forallb_app, H1, H2. reflexivity. Qed.

Lemma quiet_ret {A} (a : A) : quiet (ret a).
Proof. intros s. cbn. repeat split. discriminate. Qed.

Lemma quiet_throw {A} (e : JS.error) : quiet (@throw A e).
Proof. intros s. cbn. repeat split. discriminate. Qed.

Lemma quiet_get : quiet get.
Proof. intros s. cbn. repeat split. discriminate. Qed.

Lemma quiet_bind {A B} (m : M A) (f : A -> M B) :
  quiet m -> (forall a, quiet (f a)) -> quiet (bind m f).
Proof.
  intros Hm Hf s. specialize (Hm s). unfold bind.
  destruct (m s) as [[r s1] t1]. cbn in Hm. destruct Hm as (Hr & Hs & Ht).
  destruct r as [a | e | ]; cbn.
  - specialize (Hf a s1). destruct (f a s1) as [[r2 s2] t2]. cbn in *.
    destruct Hf as (Hr2 & Hs2 & Ht2). split; [exact Hr2 |]. split.
    + eapply same_self_trans; eassumption.
    + apply forallb_app_true; assumption.
  - repeat split; try discriminate; try apply Hs. exact Ht.
  - congruence.
Qed.

Lemma quiet_try_catch {A} (m : M A) (h : JS.error -> M A) :
  quiet m -> (forall e, quiet (h e)) -> quiet (try_catch m h).
Proof.
  intros Hm Hh s. specialize (Hm s). unfold try_catch.
  destruct (m s) as [[r s1] t1]. cbn in Hm. destruct Hm as (Hr & Hs & Ht).
  destruct r as [a | e | ]; cbn.
  - repeat split; try discriminate; try apply Hs. exact Ht.
  - specialize (Hh e s1). destruct (h e s1) as [[r2 s2] t2]. cbn in *.
    destruct Hh as (Hr2 & Hs2 & Ht2). split; [exact Hr2 |]. split.
    + eapply same_self_trans; eassumption.
    + apply forallb_app_true; assumption.
  - congruence.
Qed.

Lemma quiet_chain {A} W rq (oracle : World -> nat -> reply A) :
  quiet (chain W rq oracle).
Proof.
  intros s. unfold chain. destruct (oracle W (net s)); cbn;
    repeat split; discriminate.
Qed.

Lemma quiet_random_below W n : quiet (random_below W n).
Proof. intros s. cbn. repeat split. discriminate. Qed.

Lemma quiet_now W : quiet (now W).
Proof. intros s. cbn. repeat split. discriminate. Qed.

Lemma quiet_wallet_at k : quiet (wallet_at k).
Proof.
  apply quiet_bind; [apply quiet_get |]. intros s.
  destruct (wallets s !! k); [apply quiet_ret | apply quiet_throw].
Qed.

Lemma quiet_wallets_get i : quiet (wallets_get i).
Proof. apply quiet_bind; [apply quiet_get |]. intros s. apply quiet_ret. Qed.

Lemma quiet_prop {A} o field (f : Wallet -> A) : quiet (prop o field f).
Proof. destruct o; [apply quiet_ret | apply quiet_throw]. Qed.

Lemma quiet_call_ident {A} ident (m : M A) :
  quiet m -> quiet (DeployJs.call_ident ident m).
Proof.
  intros H. unfold DeployJs.call_ident.
  destruct (DeployJs.bound ident); [exact H | apply quiet_throw].
Qed.

Create HintDb quiet.
#[local] Hint Resolve quiet_ret quiet_throw quiet_get quiet_chain
  quiet_random_below quiet_now quiet_wallet_at quiet_wallets_get quiet_prop
  : quiet.

(** Walks through a computation built from the combinators above. *)
Ltac quiet_walk :=
  repeat first
    [ apply quiet_bind; [| intros ?]
    | apply quiet_try_catch; [| intros ?]
    | apply quiet_call_ident
    | solve [auto with quiet]
    | match goal with
      | |- quiet (match ?x with _ => _ end) => destruct x
      | |- quiet (if ?b then _ else _) => destruct b
      | |- quiet (let _ := _ in _) => cbv zeta
      end ].

Lemma quiet_TokenOnly_perform W k tokenData action :
  quiet (TokenOnly.performTokenInteraction W k tokenData action).
Proof. unfold TokenOnly.performTokenInteraction. quiet_walk. Qed.

Lemma quiet_DeployJs_performToken W k tokenData action :
  quiet (DeployJs.performTokenInteraction W k tokenData action).
Proof. unfold DeployJs.performTokenInteraction. quiet_walk. Qed.

Lemma quiet_DeployJs_performNFT W k nftData action :
  quiet (DeployJs.performNFTInteraction W k nftData action).
Proof. unfold DeployJs.performNFTInteraction. quiet_walk. Qed.

(** ** Counting events *)

Lemma attempts_app t1 t2 : attempts (t1 ++ t2) = (attempts t1 + attempts t2)%nat.
Proof. unfold attempts. rewrite List.filter_app, List.length_app. reflexivity. Qed.

Lemma successes_app t1 t2 : successes (t1 ++ t2) = (successes t1 + successes t2)%nat.
Proof. unfold successes. rewrite List.filter_app, List.length_app. reflexivity. Qed.

Lemma failures_app t1 t2 : failures (t1 ++ t2) = (failures t1 + failures t2)%nat.
Proof. unfold failures. rewrite List.filter_app, List.length_app. reflexivity. Qed.

Lemma pauses_app t1 t2 : pauses (t1 ++ t2) = (pauses t1 + pauses t2)%nat.
Proof. unfold pauses. rewrite List.filter_app, List.length_app. reflexivity. Qed.

Lemma attempts_cons e t :
  attempts (e :: t) = ((if is_start e then 1 else 0) + attempts t)%nat.
Proof. unfold attempts. cbn. destruct (is_start e); reflexivity. Qed.

Lemma successes_cons e t :
  successes (e :: t) = ((if is_ok e then 1 else 0) + successes t)%nat.
Proof. unfold successes. cbn. destruct (is_ok e); reflexivity. Qed.

Lemma failures_cons e t :
  failures (e :: t) = ((if is_failed e then 1 else 0) + failures t)%nat.
Proof. unfold failures. cbn. destruct (is_failed e); reflexivity. Qed.

Lemma pauses_cons e t :
  pauses (e :: t) = ((if is_sleep e then 1 else 0) + pauses t)%nat.
Proof. unfold pauses. cbn. destruct (is_sleep e); reflexivity. Qed.

#[local] Arguments attempts : simpl never.
#[local] Arguments successes : simpl never.
#[local] Arguments failures : simpl never.
#[local] Arguments pauses : simpl never.

(** Normalises the event counts of a trace built with [::] and [++]. *)
Ltac count_events :=
  repeat rewrite ?attempts_app, ?successes_app, ?failures_app, ?pauses_app,
    ?attempts_cons, ?successes_cons, ?failures_cons, ?pauses_cons;
  change (attempts []) with 0%nat; change (successes []) with 0%nat;
  change (failures []) with 0%nat; change (pauses []) with 0%nat;
  cbn [is_start is_ok is_failed is_sleep Nat.add].

Lemma only_calls_counts t :
  List.forallb is_call t = true ->
  attempts t = 0%nat /\ successes t = 0%nat /\ failures t = 0%nat /\ pauses t = 0%nat.
Proof.
  induction t as [| e t IH]; cbn; [auto |].
  intros H. apply andb_true_iff in H. destruct H as [He Ht].
  destruct (IH Ht) as (a & b & c & d).
  destruct e; try discriminate He. count_events. auto.
Qed.

Lemma only_calls_no_deploy t :
  List.forallb is_call t = true ->
  deploy_succeeded t = false /\ deploy_failed t = false.
Proof.
  induction t as [| e t IH]; cbn; [auto |].
  intros H. apply andb_true_iff in H. destruct H as [He Ht].
  destruct (IH Ht) as (a & b).
  destruct e; try discriminate He. cbn. auto.
Qed.

Lemma deploy_succeeded_app t1 t2 :
  deploy_succeeded (t1 ++ t2) = deploy_succeeded t1 || deploy_succeeded t2.
Proof. apply existsb_app. Qed.

Lemma deploy_failed_app t1 t2 :
  deploy_failed (t1 ++ t2) = deploy_failed t1 || deploy_failed t2.
Proof. apply existsb_app. Qed.

(** One iteration of the interaction loop: it always returns, begins
    exactly one attempt, and what else it does is decided by the outcome
    of the handler. *)
Lemma iteration_spec W perform contractType acts k i s w :
  (forall a, quiet (perform a)) ->
  wallets s !! k = Some w ->
  exists s' t,
    iteration W perform contractType acts k i s = (Ret tt, s', t)
    /\ settings s' = settings s /\ wallets s' = wallets s
    /\ deployments s' = deployments s /\ files s' = files s
    /\ attempts t = 1%nat
    /\ deploy_succeeded t = false /\ deploy_failed t = false
    /\ match run_result (perform (drawn W acts s) (set_rnd (S (rnd s)) s)) with
       | Ret v =>
           successes t = 1%nat /\ failures t = 0%nat
           /\ (exists x, interactions s' = interactions s ++ [x]
                         /\ i_walletIndex x = index w
                         /\ i_action x = drawn W acts s /\ i_result x = v)
           /\ pauses t = (if i <? interactionCount (settings s) then 1%nat else 0%nat)
           /\ (i < interactionCount (settings s) ->
               In (Sleep (interactionInterval (settings s) * 60 * 1000)) t)
       | Throw e =>
           successes t = 0%nat /\ failures t = 1%nat
           /\ interactions s' = interactions s
           /\ pauses t = 0%nat
           /\ In (InteractionFailed (JS.message e)) t
       | Pending => False
       end.
Proof.
  intros Hq Hk. unfold iteration, drawn.
  set (action := pick acts _).
  set (s1 := set_rnd (S (rnd s)) s).
  specialize (Hq action s1).
  unfold bind at 1. cbn -[bind try_catch]. fold s1. fold action.
  unfold bind at 1. cbn -[bind try_catch].
  unfold bind at 1. cbn -[bind try_catch].
  unfold try_catch. unfold bind at 1.
  destruct (perform action s1) as [[r s2] t2]. cbn in Hq.
  destruct Hq as (Hr & (Hw & Hd & Hi & Hs & Hf) & Hc).
  destruct (only_calls_counts _ Hc) as (c1 & c2 & c3 & c4).
  destruct (only_calls_no_deploy _ Hc) as (c5 & c6).
  destruct r as [v | e |]; [| | congruence].
  - unfold bind, wallet_at, get, emit, now, modify, ret. cbn.
    rewrite Hw. change (wallets s1) with (wallets s). rewrite Hk. cbn.
    rewrite Hs. change (settings s1) with (settings s).
    destruct (i <? interactionCount (settings s)) eqn:E; cbn;
      (eexists; eexists; split; [reflexivity |]);
      cbn; rewrite ?Hw, ?Hd, ?Hi, ?Hs, ?Hf;
      count_events; rewrite ?c1, ?c2, ?c3, ?c4;
      rewrite ?deploy_succeeded_app, ?deploy_failed_app, ?c5, ?c6; cbn;
      repeat split; try reflexivity;
      try (eexists; repeat split; reflexivity).
    + intros _. right. apply in_or_app. right. right. left. reflexivity.
    + intros Hlt. apply Z.ltb_ge in E. lia.
  - cbn. eexists; eexists; split; [reflexivity |].
    cbn; rewrite ?Hw, ?Hd, ?Hi, ?Hs, ?Hf.
    count_events; rewrite ?c1, ?c2, ?c3, ?c4.
    rewrite ?deploy_succeeded_app, ?deploy_failed_app, ?c5, ?c6; cbn.
    repeat split; try reflexivity.
    right. apply in_or_app. right. left. reflexivity.
Qed.

(** ** The interaction loop *)

Lemma for_upto_unfold rounds i bound body :
  for_upto rounds i bound body
  = bind bound (fun b =>
      if i <=? b then
        match rounds with
        | O => pending
        | S n => bind (body i) (fun _ => for_upto n (i + 1) bound body)
        end
      else ret tt).
Proof. destruct rounds; reflexivity. Qed.

(** With enough rounds the loop leaves through its condition, after one
    pass of the body for each [i] from the start to the count. *)
Lemma interaction_loop_spec W perform contractType acts k w :
  (forall a, quiet (perform a)) ->
  forall n rounds i s,
    wallets s !! k = Some w ->
    Z.to_nat (interactionCount (settings s) - i + 1) = n ->
    (n <= rounds)%nat ->
    exists s' t,
      for_upto rounds i count_now (iteration W perform contractType acts k) s
        = (Ret tt, s', t)
      /\ settings s' = settings s /\ wallets s' = wallets s
      /\ deployments s' = deployments s /\ files s' = files s
      /\ attempts t = n
      /\ deploy_succeeded t = false /\ deploy_failed t = false
      /\ (successes t + failures t = n)%nat
      /\ (pauses t <= successes t)%nat
      /\ exists xs, interactions s' = interactions s ++ xs
                    /\ length xs = successes t
                    /\ Forall (fun x => i_walletIndex x = index w) xs.
Proof.
  intros Hq. induction n as [| n IH]; intros rounds i s Hk Hn Hr.
  - rewrite for_upto_unfold.
    erewrite run_bind_ret by reflexivity.
    replace (i <=? interactionCount (settings s)) with false
      by (symmetry; apply Z.leb_gt; lia).
    exists s, []. cbn. repeat split; try reflexivity.
    exists []. rewrite app_nil_r. repeat split. constructor.
  - destruct rounds as [| rounds]; [lia |].
    rewrite for_upto_unfold.
    erewrite run_bind_ret by reflexivity.
    replace (i <=? interactionCount (settings s)) with true
      by (symmetry; apply Z.leb_le; lia).
    destruct (iteration_spec W perform contractType acts k i s w Hq Hk)
      as (s1 & t1 & Hrun & Hs1 & Hw1 & Hd1 & Hf1 & Ha1 & Hds1 & Hdf1 & Hcase).
    destruct (IH rounds (i + 1) s1) as
      (s2 & t2 & Hrun2 & Hs2 & Hw2 & Hd2 & Hf2 & Ha2 & Hds2 & Hdf2 & Hsf2 & Hp2
       & xs & Hx & Hlen & Hall).
    { rewrite Hw1. exact Hk. }
    { rewrite Hs1. lia. }
    { lia. }
    erewrite run_bind_ret by exact Hrun.
    rewrite Hrun2. cbn [run_result run_state run_trace fst snd app].
    exists s2, (t1 ++ t2). split; [reflexivity |].
    count_events. rewrite Ha1, Ha2.
    rewrite deploy_succeeded_app, deploy_failed_app, Hds1, Hds2, Hdf1, Hdf2.
    repeat split; try congruence.
    + destruct (run_result _) as [v | e |]; [| | contradiction].
      * destruct Hcase as (c1 & c2 & _). lia.
      * destruct Hcase as (c1 & c2 & _). lia.
    + destruct (run_result _) as [v | e |]; [| | contradiction].
      * destruct Hcase as (c1 & c2 & _ & c4 & _). destruct (i <? _); lia.
      * destruct Hcase as (c1 & c2 & _ & c4 & _). lia.
    + destruct (run_result _) as [v | e |]; [| | contradiction].
      * destruct Hcase as (c1 & c2 & (x & Hx1 & Hxi & _) & _).
        exists (x :: xs). rewrite Hx, Hx1, <- app_assoc. cbn.
        repeat split; [lia |]. constructor; assumption.
      * destruct Hcase as (c1 & c2 & Hi1 & _).
        exists xs. rewrite Hx, Hi1. repeat split; [lia | assumption].
Qed.

(** ** The deployers *)

(** Runs a deployer symbolically: one case per reply of each oracle
    consulted. *)
Ltac run_oracles W :=
  repeat (cbn;
          match goal with
          | |- context [match ?o W ?n with _ => _ end] =>
              destruct (o W n) as [? | ?]
          end);
  cbn.

Lemma map_alter_keep {A B} (g : A -> B) (f : A -> A) l :
  (forall x, g (f x) = g x) ->
  forall k, map g (alter f k l) = map g l.
Proof.
  intros Hg. induction l as [| x l IH]; intros [| k]; cbn; try reflexivity.
  - rewrite Hg. reflexivity.
  - f_equal. apply IH.
Qed.

Lemma lookup_map {A B} (f : A -> B) l :
  forall k, map f l !! k = f <$> (l !! k).
Proof.
  induction l as [| x l IH]; intros [| k]; cbn; try reflexivity. apply IH.
Qed.

Lemma announces_at s k w t0 :
  wallets s !! k = Some w ->
  announces s k (Processing (index w) (publicKey w) :: t0).
Proof.
  intros Hk. exists (index w), (publicKey w), t0.
  rewrite !lookup_map, Hk. repeat split.
Qed.

Ltac deploy_case :=
  rewrite ?list_lookup_alter_eq;
  repeat first
    [ reflexivity
    | apply map_alter_keep; reflexivity
    | split
    | match goal with
      | H : ?l !! ?k = Some ?w |- exists w', _ <$> ?l !! ?k = Some w' /\ _ =>
          rewrite H; eexists; split; reflexivity
      end ].

Lemma TokenOnly_deployToken_sound W k : deploy_sound (TokenOnly.deployToken W k) k.
Proof.
  intros s w Hk.
  unfold TokenOnly.deployToken, bind, try_catch, chain, newKeypair,
    wallet_at, get, emit, modify, ret, throw.
  cbn. rewrite Hk. run_oracles W;
    (eexists; eexists; eexists; split; [reflexivity |]); cbn; deploy_case.
Qed.

Lemma DeployJs_deployToken_sound W k : deploy_sound (DeployJs.deployToken W k) k.
Proof.
  intros s w Hk.
  unfold DeployJs.deployToken, bind, try_catch, chain,
    wallet_at, get, emit, modify, ret, throw.
  cbn. rewrite Hk. run_oracles W;
    (eexists; eexists; eexists; split; [reflexivity |]); cbn; deploy_case.
Qed.

Lemma DeployJs_deployNFT_sound W k : deploy_sound (DeployJs.deployNFT W k) k.
Proof.
  intros s w Hk.
  unfold DeployJs.deployNFT, bind, try_catch, chain, now,
    wallet_at, get, emit, modify, ret, throw.
  cbn. rewrite Hk. run_oracles W;
    (eexists; eexists; eexists; split; [reflexivity |]); cbn; deploy_case.
Qed.

(** ** One wallet of the run *)

(** The pass over one wallet always returns to the wallet loop.  Either
    the deployment succeeded, a deployment record was appended and the
    interaction loop ran to its end; or nothing was deployed and neither
    log changed. *)
Lemma wallet_pass_spec W deploy perform contractType acts k rounds s w :
  deploy_sound deploy k ->
  (forall result a, quiet (perform result a)) ->
  wallets s !! k = Some w ->
  (Z.to_nat (interactionCount (settings s)) <= rounds)%nat ->
  exists s' t,
    wallet_pass W deploy
      (fun result =>
         for_upto rounds 1 count_now
           (iteration W (perform result) contractType acts k))
      contractType k s = (Ret tt, s', t)
    /\ settings s' = settings s /\ files s' = files s
    /\ same_identities s s' /\ announces s k t
    /\ ((deploy_succeeded t = true /\ deploy_failed t = false
         /\ (exists d, deployments s' = deployments s ++ [d]
                       /\ d_walletIndex d = index w)
         /\ attempts t = Z.to_nat (interactionCount (settings s))
         /\ (successes t + failures t = attempts t)%nat
         /\ (pauses t <= successes t)%nat
         /\ exists xs, interactions s' = interactions s ++ xs
                       /\ length xs = successes t
                       /\ Forall (fun x => i_walletIndex x = index w) xs)
        \/ (deploy_succeeded t = false
            /\ deployments s' = deployments s
            /\ interactions s' = interactions s
            /\ wallets s' = wallets s
            /\ attempts t = 0%nat
            /\ (deploy_failed t = true ->
                In (Question "Press Enter to continue with next wallet...") t))).
Proof.
  intros Hdep Hq Hk Hrounds.
  pose proof (wallet_at_some k s w Hk) as Hwa.
  unfold wallet_pass.
  destruct (getBalance W (net s)) as [balance | e] eqn:Hbal.
  - pose proof (chain_resolved W (GetBalance (publicKey w)) getBalance s balance Hbal)
      as Hch.
    set (s1 := set_net (S (net s)) s) in *.
    destruct (balance <? MIN_BALANCE) eqn:Hlow.
    + eexists; eexists; split.
      { eapply try_ret_eq. do 4 step. rewrite Hlow. reflexivity. }
      split; [reflexivity |]. split; [reflexivity |].
      split; [split; reflexivity |].
      split; [apply announces_at; exact Hk |].
      right. cbn. repeat split. discriminate.
    + destruct (Hdep s1 w Hk)
        as (r & s2 & t2 & Hrun & Hs2 & Hd2 & Hi2 & Hf2 & (Hix2 & Hpk2)
            & a2 & b2 & c2 & d2 & Hcase).
      destruct r as [d | e |]; [| | contradiction].
      * destruct Hcase as ((w' & Hk' & Hidx) & Hok & Hfail).
        set (s3 := push_deployment
                     {| d_timestamp := clock W (clk s2); d_walletIndex := index w;
                        d_type := contractType; d_address := address d |}
                     (set_clk (S (clk s2)) s2)).
        destruct (interaction_loop_spec W (perform d) contractType acts k w'
                    (Hq d) (Z.to_nat (interactionCount (settings s3))) rounds 1 s3)
          as (s4 & t4 & Hloop & Hs4 & Hw4 & Hd4 & Hf4 & Ha4 & Hds4 & Hdf4
              & Hsf4 & Hp4 & xs & Hx & Hlen & Hall).
        { exact Hk'. }
        { f_equal. lia. }
        { cbn. rewrite Hs2. exact Hrounds. }
        eexists; eexists; split.
        { eapply try_ret_eq. do 4 step. rewrite Hlow. do 5 step. exact Hloop. }
        split; [rewrite Hs4; cbn; rewrite Hs2; reflexivity |].
        split; [rewrite Hf4; cbn; rewrite Hf2; reflexivity |].
        split; [split; rewrite Hw4; cbn; assumption |].
        split; [apply announces_at; exact Hk |].
        left.
        assert (Hs3 : settings s3 = settings s) by (cbn; exact Hs2).
        rewrite Hs3 in Ha4, Hsf4.
        rewrite !deploy_succeeded_app, !deploy_failed_app, Hok, Hfail, Hds4, Hdf4.
        count_events. rewrite a2, b2, c2, d2, Ha4. cbn.
        repeat split.
        -- eexists. rewrite Hd4. cbn. rewrite Hd2. split; reflexivity.
        -- exact Hsf4.
        -- exact Hp4.
        -- exists xs. rewrite Hx. cbn. rewrite Hi2. repeat split; [exact Hlen |].
           rewrite <- Hidx. exact Hall.
      * destruct Hcase as (Hw2 & Hok & Hfail).
        eexists; eexists; split.
        { eapply try_throw_eq.
          - do 4 step. rewrite Hlow. eapply run_bind_throw. exact Hrun.
          - reflexivity. }
        cbn. split; [exact Hs2 |]. split; [exact Hf2 |].
        split; [split; assumption |].
        split; [apply announces_at; exact Hk |].
        right.
        rewrite !deploy_succeeded_app, Hok. count_events. rewrite a2. cbn.
        repeat split; try assumption.
        intros _. do 3 right. apply in_or_app. right. right. left. reflexivity.
  - pose proof (chain_rejected W (GetBalance (publicKey w)) getBalance s e Hbal)
      as Hch.
    eexists; eexists; split.
    { eapply try_throw_eq.
      - do 2 step. eapply run_bind_throw. exact Hch.
      - reflexivity. }
    split; [reflexivity |]. split; [reflexivity |].
    split; [split; reflexivity |].
    split; [apply announces_at; exact Hk |].
    right. cbn. repeat split. discriminate.
Qed.

Lemma processWallet_shape v W rounds k :
  processWallet v W rounds k
  = match v with
    | TokenOnlyVersion =>
        wallet_pass W (TokenOnly.deployToken W k)
          (fun result => for_upto rounds 1 count_now
             (iteration W (TokenOnly.performTokenInteraction W k result)
                "Token" TOKEN_INTERACTIONS k)) "Token" k
    | DeployJsVersion true =>
        wallet_pass W (DeployJs.deployToken W k)
          (fun result => for_upto rounds 1 count_now
             (iteration W (DeployJs.performTokenInteraction W k result)
                "Token" TOKEN_INTERACTIONS k)) "Token" k
    | DeployJsVersion false =>
        wallet_pass W (DeployJs.deployNFT W k)
          (fun result => for_upto rounds 1 count_now
             (iteration W (DeployJs.performNFTInteraction W k result)
                "NFT" NFT_INTERACTIONS k)) "NFT" k
    end.
Proof. destruct v as [| [|]]; reflexivity. Qed.

(** The pass of either version over the wallet at position [k]. *)
Lemma processWallet_spec v W rounds k s w :
  wallets s !! k = Some w ->
  (Z.to_nat (interactionCount (settings s)) <= rounds)%nat ->
  exists s' t,
    processWallet v W rounds k s = (Ret tt, s', t)
    /\ settings s' = settings s /\ files s' = files s
    /\ same_identities s s' /\ announces s k t
    /\ ((deploy_succeeded t = true /\ deploy_failed t = false
         /\ (exists d, deployments s' = deployments s ++ [d]
                       /\ d_walletIndex d = index w)
         /\ attempts t = Z.to_nat (interactionCount (settings s))
         /\ (successes t + failures t = attempts t)%nat
         /\ (pauses t <= successes t)%nat
         /\ exists xs, interactions s' = interactions s ++ xs
                       /\ length xs = successes t
                       /\ Forall (fun x => i_walletIndex x = index w) xs)
        \/ (deploy_succeeded t = false
            /\ deployments s' = deployments s
            /\ interactions s' = interactions s
            /\ wallets s' = wallets s
            /\ attempts t = 0%nat
            /\ (deploy_failed t = true ->
                In (Question "Press Enter to continue with next wallet...") t))).
Proof.
  intros Hk Hr. rewrite processWallet_shape. destruct v as [| [|]].
  - apply wallet_pass_spec; auto using TokenOnly_deployToken_sound.
    intros; apply quiet_TokenOnly_perform.
  - apply wallet_pass_spec; auto using DeployJs_deployToken_sound.
    intros; apply quiet_DeployJs_performToken.
  - apply wallet_pass_spec; auto using DeployJs_deployNFT_sound.
    intros; apply quiet_DeployJs_performNFT.
Qed.

(** ** The wallet loop *)

Lemma same_identities_lookup s s' k :
  same_identities s s' ->
  is_Some (wallets s !! k) -> is_Some (wallets s' !! k).
Proof.
  intros [Hix _] Hk. apply lookup_lt_is_Some in Hk. apply lookup_lt_is_Some.
  apply (f_equal length) in Hix. rewrite !length_map in Hix. lia.
Qed.

(** The loop over the positions [ks] visits each of them in turn,
    whatever happens to the others: the run is one pass per position,
    each announcing its wallet, and the attempts of the whole run are
    the count times the number of deployment records appended. *)
Lemma wallet_loop_spec v W rounds ks :
  forall s,
    Forall (fun k => is_Some (wallets s !! k)) ks ->
    (Z.to_nat (interactionCount (settings s)) <= rounds)%nat ->
    exists s' ts ds,
      forEach (processWallet v W rounds) ks s = (Ret tt, s', concat ts)
      /\ settings s' = settings s /\ same_identities s s'
      /\ Forall2 (announces s) ks ts
      /\ deployments s' = deployments s ++ ds
      /\ attempts (concat ts)
         = (length ds * Z.to_nat (interactionCount (settings s)))%nat.
Proof.
  induction ks as [| k ks IH]; intros s Hks Hr.
  - exists s, [], []. cbn. rewrite app_nil_r.
    repeat split; constructor.
  - apply List.Forall_cons_iff in Hks. destruct Hks as [[w Hk] Hks].
    destruct (processWallet_spec v W rounds k s w Hk Hr)
      as (s1 & t1 & Hrun & Hs1 & _ & Hid1 & Hann & Hcase).
    destruct (IH s1) as (s2 & ts & ds & Hrest & Hs2 & Hid2 & Hall & Hd2 & Ha2).
    { eapply List.Forall_impl; [| exact Hks]. cbn. intros j.
      apply same_identities_lookup. exact Hid1. }
    { rewrite Hs1. exact Hr. }
    assert (Forall2 (announces s) ks ts) as Hall'.
    { eapply Forall2_impl; [exact Hall |]. intros j tj. unfold announces.
      destruct Hid1 as [-> ->]. tauto. }
    assert (same_identities s s2) as Hid.
    { destruct Hid1 as [a1 b1], Hid2 as [a2 b2]. split; congruence. }
    destruct Hcase as [(_ & _ & (d & Hd1 & _) & Ha1 & _) | (_ & Hd1 & _ & _ & Ha1 & _)].
    + exists s2, (t1 :: ts), (d :: ds).
      split; [cbn [forEach concat]; eapply bind_ret_eq; eassumption |].
      split; [congruence |]. split; [exact Hid |].
      split; [constructor; assumption |].
      split; [rewrite Hd2, Hd1, <- app_assoc; reflexivity |].
      cbn [concat length]. rewrite attempts_app, Ha1, Ha2, Hs1. lia.
    + exists s2, (t1 :: ts), ds.
      split; [cbn [forEach concat]; eapply bind_ret_eq; eassumption |].
      split; [congruence |]. split; [exact Hid |].
      split; [constructor; assumption |].
      split; [rewrite Hd2, Hd1; reflexivity |].
      cbn [concat]. rewrite attempts_app, Ha1, Ha2, Hs1. lia.
Qed.


(** ** C1: the number of interaction attempts *)



(** ** C7: a wallet whose deployment fails *)



(** ** C2: what the token handler returns *)

Lemma floor_scaled_range d n :
  0 < n -> 0 <= JS.floor_scaled d n < n.
Proof.
  intros Hn. unfold JS.floor_scaled, JS.denom.
  pose proof (N2Z.is_nonneg (JS.num d)). pose proof (N2Z.is_nonneg (JS.gap d)).
  split.
  - apply Z.div_pos; nia.
  - apply Z.div_lt_upper_bound; nia.
Qed.

(** The token-only handler: a mint whose submission the chain confirms
    returns the text with the amount drawn, between 1 and 1000. *)
Lemma TokenOnly_mint_returns W s k w tokenData info :
  wallets s !! k = Some w ->
  tokenAccounts w !! address tokenData = Some info ->
  sendAndConfirmTransaction W (net s) = Resolved tt ->
  let N := JS.floor_scaled (random W (rnd s)) 1000 + 1 in
  1 <= N <= 1000
  /\ TokenOnly.performTokenInteraction W k tokenData "mint" s
     = (Ret (JS.Str ("Minted " +:+ JS.toString N +:+ " tokens")),
        set_net (S (net s)) (set_rnd (S (rnd s)) s),
        [Call (MintTo (mint info) (account info) (publicKey w) N)]).
Proof.
  intros Hk Hinfo Hsend N. split.
  - pose proof (floor_scaled_range (random W (rnd s)) 1000 ltac:(lia)). subst N. lia.
  - unfold TokenOnly.performTokenInteraction, bind, try_catch, chain,
      random_below, wallet_at, get, ret. cbn. rewrite Hk. cbn. rewrite Hinfo. cbn.
    rewrite Hsend. reflexivity.
Qed.

Lemma TokenOnly_burn_returns W s k w tokenData info :
  wallets s !! k = Some w ->
  tokenAccounts w !! address tokenData = Some info ->
  sendAndConfirmTransaction W (net s) = Resolved tt ->
  let N := JS.floor_scaled (random W (rnd s)) 50 + 1 in
  1 <= N <= 50
  /\ TokenOnly.performTokenInteraction W k tokenData "burn" s
     = (Ret (JS.Str ("Burned " +:+ JS.toString N +:+ " tokens")),
        set_net (S (net s)) (set_rnd (S (rnd s)) s),
        [Call (Burn (account info) (mint info) (publicKey w) N)]).
Proof.
  intros Hk Hinfo Hsend N. split.
  - pose proof (floor_scaled_range (random W (rnd s)) 50 ltac:(lia)). subst N. lia.
  - unfold TokenOnly.performTokenInteraction, bind, try_catch, chain,
      random_below, wallet_at, get, ret. cbn. rewrite Hk. cbn. rewrite Hinfo. cbn.
    rewrite Hsend. reflexivity.
Qed.


(** Every position of the wallet list is the outcome of some draw, the
    sender's own position included. *)
Lemma every_wallet_can_be_drawn (len k : N) :
  (k < len)%N ->
  JS.floor_scaled (JS.Draw k (len - k - 1)) (Z.of_N len) = Z.of_N k.
Proof.
  intros Hk. unfold JS.floor_scaled, JS.denom. cbn [JS.num JS.gap].
  replace (Z.of_N k + Z.of_N (len - k - 1) + 1) with (Z.of_N len) by lia.
  apply Z.div_mul. lia.
Qed.

(** The token-only handler: a transfer whose requests the chain answers
    returns the text with the amount drawn, between 1 and 100, and the
    index of the wallet at the position drawn. *)
Lemma TokenOnly_transfer_returns W s k w tokenData info target ata :
  wallets s !! k = Some w ->
  tokenAccounts w !! address tokenData = Some info ->
  let N := JS.floor_scaled (random W (rnd s)) 100 + 1 in
  let r := JS.floor_scaled (random W (S (rnd s))) (Z.of_nat (length (wallets s))) in
  wallets s !! Z.to_nat r = Some target ->
  getAssociatedTokenAddress W (net s) = Resolved ata ->
  getAccount W (S (net s)) = Resolved tt ->
  sendAndConfirmTransaction W (S (S (net s))) = Resolved tt ->
  1 <= N <= 100
  /\ run_result (TokenOnly.performTokenInteraction W k tokenData "transfer" s)
     = Ret (JS.Str ("Transferred " +:+ JS.toString N +:+ " tokens to wallet #"
                    +:+ JS.toString (index target)))
  /\ run_trace (TokenOnly.performTokenInteraction W k tokenData "transfer" s)
     = [Call (GetAssociatedTokenAddress (mint info) (publicKey target));
        Call (GetAccount ata);
        Call (Transfer (account info) ata (publicKey w) N)].
Proof.
  intros Hk Hinfo N r Htarget Hata Hacc Hsend.
  assert (0 <= r) as Hr.
  { subst r. unfold JS.floor_scaled, JS.denom.
    pose proof (N2Z.is_nonneg (JS.num (random W (S (rnd s))))).
    pose proof (N2Z.is_nonneg (JS.gap (random W (S (rnd s))))).
    apply Z.div_pos; nia. }
  split.
  - pose proof (floor_scaled_range (random W (rnd s)) 100 ltac:(lia)). subst N. lia.
  - unfold TokenOnly.performTokenInteraction, bind, try_catch, chain,
      random_below, wallet_at, wallets_get, prop, get, ret.
    cbn. rewrite Hk. cbn. rewrite Hinfo. cbn.
    fold r. replace (r <? 0) with false by (symmetry; apply Z.ltb_ge; exact Hr).
    rewrite Htarget. cbn. rewrite Hata. cbn. rewrite Hacc. cbn. rewrite Hsend.
    split; reflexivity.
Qed.

(** C2. In [deploy.js] the class member [performTokenInteraction] in
    force calls the SDK through the bare names [mintTo],
    [getOrCreateAssociatedTokenAccount] and [burn], which nothing in the
    module binds.  For a wallet holding the token and each of the three
    actions, the handler draws its amount (and, for a transfer, its
    wallet) and then throws a [ReferenceError]; no request reaches the
    chain and none of the three texts is returned. *)
Theorem deployjs_token_handler_throws
    (W : World) (s : State) (k : nat) (w : Wallet) (tokenData : Deployed)
    (info : TokenInfo) (action : string) :
  wallets s !! k = Some w ->
  tokenAccounts w !! address tokenData = Some info ->
  In action TOKEN_INTERACTIONS ->
  exists ident s',
    DeployJs.performTokenInteraction W k tokenData action s
      = (Throw (JS.mkReferenceError ident), s', [])
    /\ same_self s s'
    /\ ((action = "mint" /\ ident = "mintTo" /\ rnd s' = S (rnd s))
        \/ (action = "transfer" /\ ident = "getOrCreateAssociatedTokenAccount"
            /\ rnd s' = S (S (rnd s)))
        \/ (action = "burn" /\ ident = "burn" /\ rnd s' = S (rnd s))).
Proof.
  intros Hk Hinfo Hact.
  unfold DeployJs.performTokenInteraction, bind, wallet_at, wallets_get, get, ret.
  cbn. rewrite Hk. cbn. rewrite Hinfo.
  destruct Hact as [<- | [<- | [<- | []]]]; cbn;
    (eexists; eexists; split; [reflexivity |]); cbn;
    (split; [repeat split |]); auto.
Qed.

(** Wallet #1 mints from the token it deployed, on a chain that accepts
    everything. *)
Lemma deployjs_token_handler_throws_witness :
  exists ident s',
    DeployJs.performTokenInteraction Sample.calm 0 Sample.Mint "mint"
      Sample.token_deployed
      = (Throw (JS.mkReferenceError ident), s', [])
    /\ same_self Sample.token_deployed s'
    /\ (("mint" = "mint" /\ ident = "mintTo"
         /\ rnd s' = S (rnd Sample.token_deployed))
        \/ ("mint" = "transfer" /\ ident = "getOrCreateAssociatedTokenAccount"
            /\ rnd s' = S (S (rnd Sample.token_deployed)))
        \/ ("mint" = "burn" /\ ident = "burn"
            /\ rnd s' = S (rnd Sample.token_deployed))).
Proof.
  exact (deployjs_token_handler_throws Sample.calm Sample.token_deployed 0
           {| index := 1; keypair := keypair (Sample.wallet 1 "A");
              publicKey := "pkA";
              tokenAccounts := <["Mint" := {| mint := "Mint"; account := "Ata" |}]> ∅;
              nftAccounts := ∅ |}
           Sample.Mint {| mint := "Mint"; account := "Ata" |} "mint"
           eq_refl eq_refl (or_introl eq_refl)).
Defined.

Example deployjs_mint_run :
  DeployJs.performTokenInteraction Sample.calm 0 Sample.Mint "mint" Sample.token_deployed
  = (Throw (JS.mkReferenceError "mintTo"), set_rnd 1 Sample.token_deployed, []).
Proof. reflexivity. Qed.

(** The replaced member of the same name, had it stayed in force, and the
    token-only version both return the text on the same input. *)
Example deployjs_replaced_mint_run :
  run_result (DeployJs.performTokenInteraction_replaced Sample.calm 0 Sample.Mint
                "mint" Sample.token_deployed)
  = Ret (JS.Str "Minted 1 tokens").
Proof. reflexivity. Qed.

Example tokenonly_mint_run :
  run_result (TokenOnly.performTokenInteraction Sample.calm 0 Sample.Mint
                "mint" Sample.token_deployed)
  = Ret (JS.Str "Minted 1 tokens").
Proof. reflexivity. Qed.

Example tokenonly_transfer_run :
  TokenOnly.performTokenInteraction (Sample.high_draws Sample.calm) 0 Sample.Mint
    "transfer" Sample.token_deployed
  = (Ret (JS.Str "Transferred 67 tokens to wallet #3"),
     set_net 3 (set_rnd 2 Sample.token_deployed),
     [Call (GetAssociatedTokenAddress "Mint" "pkC"); Call (GetAccount "Ata");
      Call (Transfer "Ata" "Ata" "pkA" 67)]).
Proof. reflexivity. Qed.

(** ** C3: an action the token handler does not know *)

Lemma eqb_false_of_neq (a b : string) : a <> b -> String.eqb a b = false.
Proof. intros H. apply String.eqb_neq. exact H. Qed.

(** The token-only version ends its [switch] with a [default] that
    throws. *)
Lemma TokenOnly_unknown_action_throws W s k w tokenData info action :
  wallets s !! k = Some w ->
  tokenAccounts w !! address tokenData = Some info ->
  ~ In action TOKEN_INTERACTIONS ->
  TokenOnly.performTokenInteraction W k tokenData action s
  = (Throw (JS.mkError ("Unknown action: " +:+ action)), s, []).
Proof.
  intros Hk Hinfo Hact. cbn in Hact.
  unfold TokenOnly.performTokenInteraction, bind, wallet_at, get.
  cbn. rewrite Hk. cbn. rewrite Hinfo.
  rewrite !eqb_false_of_neq by (intros ->; tauto). reflexivity.
Qed.



Example tokenonly_unknown_action_run :
  TokenOnly.performTokenInteraction Sample.calm 0 Sample.Mint "stake"
    Sample.token_deployed
  = (Throw (JS.mkError "Unknown action: stake"), Sample.token_deployed, []).
Proof. reflexivity. Qed.

(** ** C4: the NFT action set *)

Lemma pick_three (a b c : string) d :
  let x := pick [a; b; c] (JS.floor_scaled d 3) in
  x = a \/ x = b \/ x = c.
Proof.
  pose proof (floor_scaled_range d 3 ltac:(lia)) as Hr.
  assert (JS.floor_scaled d 3 = 0 \/ JS.floor_scaled d 3 = 1
          \/ JS.floor_scaled d 3 = 2) as [E | [E | E]] by lia;
    cbv zeta; rewrite E; cbn; auto.
Qed.

(** C4. In an NFT run of [deploy.js] the actions are drawn from
    [NFT_INTERACTIONS], which holds mint, transfer and update: the name
    updateMetadata, the only metadata case of [performNFTInteraction],
    is never drawn, while the draw 2/3 yields update, which no case
    matches.  For a wallet holding the NFT the handler then returns
    [undefined] with no request to the chain: the display name is not
    rewritten and no outcome text is produced. *)
Theorem nft_update_is_drawn_but_not_handled
    (W : World) (s : State) (k : nat) (w : Wallet) (nftData : Deployed)
    (nft : Nft) :
  wallets s !! k = Some w ->
  nftAccounts w !! address nftData = Some nft ->
  (forall d, In (pick NFT_INTERACTIONS
                   (JS.floor_scaled d (Z.of_nat (length NFT_INTERACTIONS))))
                ["mint"; "transfer"; "update"])
  /\ (forall d, pick NFT_INTERACTIONS
                  (JS.floor_scaled d (Z.of_nat (length NFT_INTERACTIONS)))
                <> "updateMetadata")
  /\ pick NFT_INTERACTIONS
       (JS.floor_scaled (JS.Draw 2 0) (Z.of_nat (length NFT_INTERACTIONS)))
     = "update"
  /\ DeployJs.performNFTInteraction W k nftData "update" s
     = (Ret JS.Undefined, s, []).
Proof.
  intros Hk Hnft. repeat split.
  - intros d.
    change (pick NFT_INTERACTIONS
              (JS.floor_scaled d (Z.of_nat (length NFT_INTERACTIONS))))
      with (pick ["mint"; "transfer"; "update"] (JS.floor_scaled d 3)).
    destruct (pick_three "mint" "transfer" "update" d) as [E | [E | E]];
      cbv zeta in E; rewrite E; cbn; auto.
  - intros d.
    change (pick NFT_INTERACTIONS
              (JS.floor_scaled d (Z.of_nat (length NFT_INTERACTIONS))))
      with (pick ["mint"; "transfer"; "update"] (JS.floor_scaled d 3)).
    destruct (pick_three "mint" "transfer" "update" d) as [E | [E | E]];
      cbv zeta in E; rewrite E; discriminate.
  - unfold DeployJs.performNFTInteraction, bind, wallet_at, get.
    cbn. rewrite Hk. cbn. rewrite Hnft. reflexivity.
Qed.

Lemma nft_update_is_drawn_but_not_handled_witness :
  DeployJs.performNFTInteraction Sample.calm 0 Sample.TheNft "update"
    Sample.nft_deployed
  = (Ret JS.Undefined, Sample.nft_deployed, []).
Proof.
  apply (nft_update_is_drawn_but_not_handled Sample.calm Sample.nft_deployed 0
           {| index := 1; keypair := keypair (Sample.wallet 1 "A");
              publicKey := "pkA"; tokenAccounts := ∅;
              nftAccounts :=
                <["Nft" := {| nft_address := "Nft"; nft_name := "ONIXIA NFT";
                              nft_uri := ""; nft_sellerFeeBasisPoints := 500;
                              nft_metadataAddress := "Meta" |}]> ∅ |}
           Sample.TheNft
           {| nft_address := "Nft"; nft_name := "ONIXIA NFT"; nft_uri := "";
              nft_sellerFeeBasisPoints := 500; nft_metadataAddress := "Meta" |}
           eq_refl eq_refl).
Defined.

(** An NFT pass in which every draw is 2/3: each iteration draws update,
    is reported as a success with the text [undefined], and is logged
    with that result; the chain sees the creation of the NFT only. *)
Example nft_pass_with_update_runs :
  let x := processWallet (DeployJsVersion false) (Sample.high_draws Sample.calm) 2 0
             (Sample.with_count 2 0 Sample.loaded) in
  run_trace x
  = [Processing 1 "pkA"; Call (GetBalance "pkA"); Balance 2000000000;
     Creating "NFT" 1; Call (NftCreate "ONIXIA NFT #1700000000000" None);
     Created "NFT" "Nft"; Starting 2;
     InteractionStart 1 2 "update"; InteractionOk JS.Undefined; Sleep 0;
     InteractionStart 2 2 "update"; InteractionOk JS.Undefined]
  /\ map i_result (interactions (run_state x)) = [JS.Undefined; JS.Undefined].
Proof. split; reflexivity. Qed.

(** The metadata case does rewrite the name when it is called with the
    name it knows. *)
Example nft_updateMetadata_run :
  DeployJs.performNFTInteraction Sample.calm 0 Sample.TheNft "updateMetadata"
    Sample.nft_deployed
  = (Ret (JS.Str "Updated NFT metadata"),
     set_net 1 (set_clk 1 Sample.nft_deployed),
     [Call (NftUpdate "Nft" "ONIXIA NFT Updated 1700000000000")]).
Proof. reflexivity. Qed.

(** ** C6: the pause between iterations *)

Lemma interaction_shape v W k result i :
  interaction v W k result i
  = iteration W (handler v W k result)
      (match v with DeployJsVersion false => "NFT" | _ => "Token" end)
      (actions v) k i.
Proof. destruct v as [| [|]]; reflexivity. Qed.

Lemma quiet_handler v W k result action : quiet (handler v W k result action).
Proof.
  destruct v as [| [|]]; cbn.
  - apply quiet_TokenOnly_perform.
  - apply quiet_DeployJs_performToken.
  - apply quiet_DeployJs_performNFT.
Qed.

(** C6. In either version the pause sits inside the [try] block, after
    the call of the handler: an iteration whose handler throws logs the
    failure and takes no pause, also when it is not the last one, so the
    next iteration starts at once. *)
Theorem no_pause_after_failed_interaction
    (v : version) (W : World) (k : nat) (result : Deployed) (i : Z)
    (s : State) (w : Wallet) (e : JS.error) :
  wallets s !! k = Some w ->
  i < interactionCount (settings s) ->
  run_result (handler v W k result (drawn W (actions v) s) (set_rnd (S (rnd s)) s))
    = Throw e ->
  let x := interaction v W k result i s in
  run_result x = Ret tt
  /\ pauses (run_trace x) = 0%nat
  /\ In (InteractionFailed (JS.message e)) (run_trace x).
Proof.
  intros Hk Hi He x. subst x. rewrite interaction_shape.
  destruct (iteration_spec W (handler v W k result)
              (match v with DeployJsVersion false => "NFT" | _ => "Token" end)
              (actions v) k i s w (quiet_handler v W k result) Hk)
    as (s' & t & Hrun & _ & _ & _ & _ & _ & _ & _ & Hcase).
  rewrite He in Hcase. destruct Hcase as (_ & _ & _ & Hp & Hin).
  rewrite Hrun. cbn [run_result run_trace fst snd]. auto.
Qed.

(** What the pause does do: after an interaction that succeeds and is
    not the last, the iteration waits the interval, in milliseconds. *)
Lemma pause_after_successful_interaction
    (v : version) (W : World) (k : nat) (result : Deployed) (i : Z)
    (s : State) (w : Wallet) (out : JS.value) :
  wallets s !! k = Some w ->
  i < interactionCount (settings s) ->
  run_result (handler v W k result (drawn W (actions v) s) (set_rnd (S (rnd s)) s))
    = Ret out ->
  let x := interaction v W k result i s in
  pauses (run_trace x) = 1%nat
  /\ In (Sleep (interactionInterval (settings s) * 60 * 1000)) (run_trace x).
Proof.
  intros Hk Hi He x. subst x. rewrite interaction_shape.
  destruct (iteration_spec W (handler v W k result)
              (match v with DeployJsVersion false => "NFT" | _ => "Token" end)
              (actions v) k i s w (quiet_handler v W k result) Hk)
    as (s' & t & Hrun & _ & _ & _ & _ & _ & _ & _ & Hcase).
  rewrite He in Hcase. destruct Hcase as (_ & _ & _ & Hp & Hin).
  rewrite Hrun. cbn [run_result run_trace fst snd].
  replace (i <? interactionCount (settings s)) with true in Hp
    by (symmetry; apply Z.ltb_lt; exact Hi).
  auto.
Qed.

(** First of two iterations, one minute apart, on a chain that is down. *)
Lemma no_pause_after_failed_interaction_witness :
  let x := interaction TokenOnlyVersion Sample.offline 0 Sample.Mint 1
             (Sample.with_count 2 1 Sample.token_deployed) in
  run_result x = Ret tt
  /\ pauses (run_trace x) = 0%nat
  /\ In (InteractionFailed "Mint failed: blockhash not found") (run_trace x).
Proof.
  apply (no_pause_after_failed_interaction TokenOnlyVersion Sample.offline 0
           Sample.Mint 1 (Sample.with_count 2 1 Sample.token_deployed)
           {| index := 1; keypair := keypair (Sample.wallet 1 "A");
              publicKey := "pkA";
              tokenAccounts := <["Mint" := {| mint := "Mint"; account := "Ata" |}]> ∅;
              nftAccounts := ∅ |}
           (JS.mkError "Mint failed: blockhash not found")
           eq_refl ltac:(cbn; lia) eq_refl).
Defined.

(** Two interactions one minute apart; the first fails, the second, the
    last, succeeds: the run never pauses. *)
Example two_interactions_no_pause :
  let t := run_trace (processWallet TokenOnlyVersion Sample.flaky 2 0
                        (Sample.with_count 2 1 Sample.loaded)) in
  attempts t = 2%nat /\ failures t = 1%nat /\ successes t = 1%nat
  /\ pauses t = 0%nat.
Proof. repeat split. Qed.

(** The same with both interactions confirmed: one pause of a minute. *)
Example two_interactions_one_pause :
  List.filter is_sleep
    (run_trace (processWallet TokenOnlyVersion Sample.calm 2 0
                  (Sample.with_count 2 1 Sample.loaded)))
  = [Sleep 60000].
Proof. reflexivity. Qed.

(** ** Decimal text of integers *)














(** ** C5: what the settings menu stores *)








(** Typed as the interval, 0 leaves the default in place and -2 is
    stored. *)
Example interval_zero_is_not_stored :
  interactionInterval
    (settings (run_state (settingsMenu (Sample.typing ["2"; "0"; ""; "4"] Sample.calm) 2
                            (Sample.with_count 3 7 (constructor ∅)))))
  = 1.
Proof. reflexivity. Qed.

Example negative_interval_is_stored :
  interactionInterval
    (settings (run_state (settingsMenu (Sample.typing ["2"; "-2"; ""; "4"] Sample.calm) 2
                            (constructor ∅))))
  = -2.
Proof. reflexivity. Qed.



(** ** C8: the wallet loader *)





(** The callback of [init] over the keys from position [i] on: it
    never throws, keeps the state, yields a wallet for each key the SDK
    accepts, numbered by the position of the key, and one error line
    for each key it refuses. *)
Lemma map_indexed_loadKey W keys :
  forall i s,
  exists loaded t,
    map_indexed (loadKey W) keys i s = (Ret loaded, s, t)
    /\ map keypair (omap id loaded) = omap (fromSecretKey W) keys
    /\ map index (omap id loaded) = map line_number (positions (valid W) keys i)
    /\ Forall (fun w => publicKey w = kp_publicKey (keypair w)
                        /\ tokenAccounts w = ∅ /\ nftAccounts w = ∅)
         (omap id loaded)
    /\ t = map (fun j => KeyError (line_number j))
             (positions (fun key => negb (valid W key)) keys i).
Proof.
  induction keys as [| key r IH]; intros i s.
  - exists [], []. repeat split. constructor.
  - destruct (IH (S i) s) as (loaded & t & Hrun & Hkp & Hidx & Hall & Ht).
    cbn [map_indexed positions omap list_omap]. unfold loadKey at 1.
    destruct (fromSecretKey W key) as [kp |] eqn:E.
    + assert (valid W key = true) as Hv by (unfold valid; rewrite E; reflexivity).
      rewrite Hv. cbn [negb].
      eexists; eexists; split.
      { eapply bind_ret_eq; [reflexivity |]. eapply bind_ret_eq; [exact Hrun |].
        reflexivity. }
      cbn. repeat split; try (f_equal; assumption).
      * constructor; [repeat split | exact Hall].
      * rewrite app_nil_r. exact Ht.
    + assert (valid W key = false) as Hv by (unfold valid; rewrite E; reflexivity).
      rewrite Hv. cbn [negb].
      eexists; eexists; split.
      { eapply bind_ret_eq; [reflexivity |]. eapply bind_ret_eq; [exact Hrun |].
        reflexivity. }
      cbn. repeat split; try assumption.
      rewrite app_nil_r. f_equal. exact Ht.
Qed.



(** ** C9: report names and their listing *)





(** *** The default order of [sort] *)











(** *** Names of the same length are ordered like their stamps *)













(** The listing is by name: entries that only share the prefix are
    listed too, and a shorter stamp sorts after a longer one. *)
Example listing_is_by_name :
  listReports ["sonic-report-1700000000001.txt"; "deploy.js";
               "sonic-report-1700000000003.txt"; "sonic-report-notes.md";
               "sonic-report-1700000000002.txt"; "sonic-report-999.txt"]
  = ["sonic-report-notes.md"; "sonic-report-999.txt";
     "sonic-report-1700000000003.txt"; "sonic-report-1700000000002.txt";
     "sonic-report-1700000000001.txt"].
Proof. reflexivity. Qed.



(** The scenario of the specification for the loader: two keys, a blank
    line and a malformed line. *)
Example loader_scenario :
  let x := init Sample.calm
             (FileContent ("A" +:+ newline +:+ newline +:+ "not a key"
                           +:+ newline +:+ "B" +:+ newline))
             (constructor ∅) in
  run_result x = Ret true
  /\ run_trace x = [KeyError 2; Loaded 2]
  /\ map index (wallets (run_state x)) = [1; 3].
Proof. repeat split. Qed.

(** * Further properties of the code

    The properties below cover the parts of the two files that the
    properties C1 to C10 leave out: the failure paths of the loader and of
    the deployers, the balance gate, the deployment menu, the reports,
    the settings menu, the NFT handler, the balance table and the entry
    point. *)

Import Cover.

(** ** The wallet loader: failures *)

Ltac split_char c :=
  destruct c as [[] [] [] [] [] [] [] []]; try reflexivity.

(** X1. In both versions, when the key file cannot be read [init] answers
    [false] and leaves the deployer as it was: no wallet is loaded and
    nothing is thrown to the caller.  It logs the missing-file message
    when the error code is ENOENT and the message of the error
    otherwise. *)
Theorem init_unreadable_key_file (W : World) (code msg : string) (s : State) :
  init W (ReadError code msg) s
  = (Ret false, s,
     [if String.eqb code "ENOENT" then KeyFileMissing else InitError msg]).
Proof.
  unfold init, try_catch, bind, readFileSync, throw, emit, ret. cbn.
  destruct code as [| c0 code]; [reflexivity |]. split_char c0.
  destruct code as [| c1 code]; [reflexivity |]. split_char c1.
  destruct code as [| c2 code]; [reflexivity |]. split_char c2.
  destruct code as [| c3 code]; [reflexivity |]. split_char c3.
  destruct code as [| c4 code]; [reflexivity |]. split_char c4.
  destruct code as [| c5 code]; [reflexivity |]. split_char c5.
  destruct code as [| c6 code]; reflexivity.
Qed.

Lemma init_run W content s :
  exists loaded t,
    map_indexed (loadKey W) (privateKeys content) 0 s = (Ret loaded, s, t)
    /\ init W (FileContent content) s
       = if (length (omap id loaded) =? 0)%nat
         then (Ret false, set_wallets (omap id loaded) s,
               t ++ [InitError "No valid wallets found"])
         else (Ret true, set_wallets (omap id loaded) s,
               t ++ [Loaded (Z.of_nat (length (omap id loaded)))]).
Proof.
  destruct (map_indexed_loadKey W (privateKeys content) 0 s)
    as (loaded & t & Hrun & _).
  exists loaded, t. split; [exact Hrun |].
  unfold init. destruct (length (omap id loaded) =? 0)%nat eqn:E.
  - etransitivity.
    { eapply try_throw_eq.
      - eapply bind_ret_eq; [reflexivity |].
        eapply bind_ret_eq; [exact Hrun |].
        eapply bind_ret_eq; [reflexivity |].
        eapply bind_ret_eq; [reflexivity |].
        cbn [wallets set_wallets]. rewrite E. reflexivity.
      - reflexivity. }
    cbn. rewrite ?app_nil_r. reflexivity.
  - etransitivity.
    { eapply try_ret_eq.
      eapply bind_ret_eq; [reflexivity |].
      eapply bind_ret_eq; [exact Hrun |].
      eapply bind_ret_eq; [reflexivity |].
      eapply bind_ret_eq; [reflexivity |].
      cbn [wallets set_wallets]. rewrite E. reflexivity. }
    cbn. rewrite ?app_nil_r. reflexivity.
Qed.



(** ** The deployers: what a deployment registers *)

Ltac run_deployer v W Hk :=
  destruct v as [| [|]];
  unfold deployer, TokenOnly.deployToken, DeployJs.deployToken,
    DeployJs.deployNFT, bind, try_catch, chain, newKeypair, now,
    wallet_at, get, emit, modify, ret, throw;
  cbn; rewrite Hk; run_oracles W.

(** X3. When the deployer of either version ([deployToken] of both files,
    [deployNFT]) returns, the wallet it ran for holds the new asset under
    the address returned: the token entry carries that address as mint
    and the holding account returned, the NFT entry the metadata address
    returned.  The wallet keeps its index and address, every other
    wallet is untouched, and the spinner reports the address created. *)
Theorem deployed_asset_is_registered
    (v : version) (W : World) (k : nat) (s s' : State) (w : Wallet)
    (d : Deployed) (t : list event) :
  wallets s !! k = Some w ->
  deployer v W k s = (Ret d, s', t) ->
  exists w',
    wallets s' !! k = Some w' /\ holds_asset v w' d
    /\ index w' = index w /\ publicKey w' = publicKey w
    /\ (forall j, j <> k -> wallets s' !! j = wallets s !! j)
    /\ In (Created (kind v) (address d)) t.
Proof.
  intros Hk. run_deployer v W Hk; intros H; try discriminate;
    injection H as <- <- <-; cbn;
    rewrite list_lookup_alter_eq, Hk; cbn;
    (eexists; split; [reflexivity |]); cbn;
    (split; [eexists; rewrite lookup_insert_eq; repeat split |]);
    (split; [reflexivity |]); (split; [reflexivity |]);
    (split; [intros j Hj; apply list_lookup_alter_ne; congruence |]);
    rewrite ?in_app_iff; cbn; tauto.
Qed.

(** Wallet #1 deploys a token with [deploy.js] on a calm chain. *)
Lemma deployed_asset_is_registered_witness :
  let x := deployer (DeployJsVersion true) Sample.calm 0 Sample.loaded in
  exists w',
    wallets (run_state x) !! 0%nat = Some w'
    /\ holds_asset (DeployJsVersion true) w' Sample.Mint
    /\ index w' = 1 /\ publicKey w' = "pkA"
    /\ (forall j, j <> 0%nat ->
                  wallets (run_state x) !! j = wallets Sample.loaded !! j)
    /\ In (Created "Token" "Mint") (run_trace x).
Proof.
  exact (deployed_asset_is_registered (DeployJsVersion true) Sample.calm 0
           Sample.loaded
           (run_state (deployer (DeployJsVersion true) Sample.calm 0 Sample.loaded))
           (Sample.wallet 1 "A") Sample.Mint
           (run_trace (deployer (DeployJsVersion true) Sample.calm 0 Sample.loaded))
           eq_refl eq_refl).
Defined.

(** X4. When the deployer of either version throws, the error is the one
    its [catch] block saw: the spinner reports the failure with the
    message of that error after at least one request to the chain, and
    no wallet has gained an entry, also when an earlier request of the
    same deployment had gone through. *)
Theorem failed_deployment_registers_nothing
    (v : version) (W : World) (k : nat) (s s' : State) (w : Wallet)
    (e : JS.error) (t : list event) :
  wallets s !! k = Some w ->
  deployer v W k s = (Throw e, s', t) ->
  wallets s' = wallets s
  /\ exists calls,
       t = Creating (kind v) (index w) :: calls
             ++ [CreateFailed (kind v) (JS.message e)]
       /\ forallb is_call calls = true
       /\ calls <> [].
Proof.
  intros Hk. run_deployer v W Hk; intros H; try discriminate;
    injection H as <- <- <-; cbn; (split; [reflexivity |]);
    match goal with
    | |- exists calls, ?h :: ?l = ?h :: calls ++ [?x] /\ _ =>
        exists (removelast l); split; [reflexivity |]; cbn; split;
          [reflexivity | discriminate]
    end.
Qed.

(** The same deployment on a chain that is down. *)
Lemma failed_deployment_registers_nothing_witness :
  let x := deployer (DeployJsVersion true) Sample.offline 0 Sample.loaded in
  wallets (run_state x) = wallets Sample.loaded
  /\ exists calls,
       run_trace x
       = Creating "Token" 1 :: calls
           ++ [CreateFailed "Token" "blockhash not found"]
       /\ forallb is_call calls = true
       /\ calls <> [].
Proof.
  exact (failed_deployment_registers_nothing (DeployJsVersion true)
           Sample.offline 0 Sample.loaded
           (run_state (deployer (DeployJsVersion true) Sample.offline 0 Sample.loaded))
           (Sample.wallet 1 "A") (JS.mkError "blockhash not found")
           (run_trace (deployer (DeployJsVersion true) Sample.offline 0 Sample.loaded))
           eq_refl eq_refl).
Defined.

(** ** The token-only handler: failures and the destination account *)

(** X5. In the token-only version every error that leaves
    [performTokenInteraction] for one of the three actions, on a wallet
    holding the token, is a fresh [Error] whose message opens with the
    action's label: 'Mint failed: ', 'Transfer failed: ' or
    'Burn failed: '. *)
Theorem tokenonly_failure_is_labelled
    (W : World) (s : State) (k : nat) (w : Wallet) (tokenData : Deployed)
    (info : TokenInfo) (action : string) (e : JS.error) :
  wallets s !! k = Some w ->
  tokenAccounts w !! address tokenData = Some info ->
  In action TOKEN_INTERACTIONS ->
  run_result (TokenOnly.performTokenInteraction W k tokenData action s) = Throw e ->
  exists msg,
    e = JS.mkError (failure_label action +:+ " failed: " +:+ msg).
Proof.
  intros Hk Hinfo Hact.
  unfold TokenOnly.performTokenInteraction, bind, try_catch, chain,
    random_below, wallet_at, wallets_get, prop, get, ret, throw.
  cbn. rewrite Hk. cbn. rewrite Hinfo.
  cbn in Hact. destruct Hact as [<- | [<- | [<- | []]]]; cbn.
  - run_oracles W; intros H; try discriminate; inversion H; subst; eexists; reflexivity.
  - destruct (JS.floor_scaled _ _ <? 0); cbn.
    { intros H; inversion H; eexists; reflexivity. }
    destruct (wallets s !! Z.to_nat _); cbn.
    2: { intros H; inversion H; eexists; reflexivity. }
    run_oracles W; intros H; try discriminate; inversion H; subst; eexists; reflexivity.
  - run_oracles W; intros H; try discriminate; inversion H; subst; eexists; reflexivity.
Qed.

(** A burn on a chain that is down. *)
Lemma tokenonly_failure_is_labelled_witness :
  exists msg,
    JS.mkError "Burn failed: blockhash not found"
    = JS.mkError (failure_label "burn" +:+ " failed: " +:+ msg).
Proof.
  exact (tokenonly_failure_is_labelled Sample.offline Sample.token_deployed 0
           Scenario.holder Sample.Mint {| mint := "Mint"; account := "Ata" |}
           "burn" (JS.mkError "Burn failed: blockhash not found")
           eq_refl eq_refl (or_intror (or_intror (or_introl eq_refl))) eq_refl).
Defined.



(** ** The pass over one wallet: the balance gate *)

Lemma bind_trace_prefix {A B} (m : M A) (f : A -> M B) s :
  exists t2, run_trace (bind m f s) = run_trace (m s) ++ t2.
Proof.
  unfold bind. destruct (m s) as [[[a | e |] s1] t1]; cbn.
  - destruct (f a s1) as [[r s2] t2]. eauto.
  - exists []. rewrite app_nil_r. reflexivity.
  - exists []. rewrite app_nil_r. reflexivity.
Qed.

Lemma try_trace_prefix {A} (m : M A) (h : JS.error -> M A) s :
  exists t2, run_trace (try_catch m h s) = run_trace (m s) ++ t2.
Proof.
  unfold try_catch. destruct (m s) as [[[a | e |] s1] t1]; cbn.
  - exists []. rewrite app_nil_r. reflexivity.
  - destruct (h e s1) as [[r s2] t2]. eauto.
  - exists []. rewrite app_nil_r. reflexivity.
Qed.

Lemma deployer_announces v W k s w :
  wallets s !! k = Some w ->
  exists t, run_trace (deployer v W k s) = Creating (kind v) (index w) :: t.
Proof.
  intros Hk.
  destruct v as [| [|]]; cbn [deployer kind];
    unfold TokenOnly.deployToken, DeployJs.deployToken, DeployJs.deployNFT;
    erewrite run_bind_ret by (apply wallet_at_some; exact Hk);
    erewrite run_bind_ret by reflexivity;
    cbn [run_trace snd app]; eauto.
Qed.

Lemma processWallet_deployer v W rounds k :
  exists loop,
    processWallet v W rounds k = wallet_pass W (deployer v W k) loop (kind v) k.
Proof. destruct v as [| [|]]; eexists; reflexivity. Qed.

(** X7. In either version a wallet whose balance is below 0.1 SOL
    (100000000 lamports) is skipped: the pass logs the balance and the
    skip and returns with one request sent, the balance query; no
    deployment is asked for, neither log changes and the operator is not
    prompted. *)
Theorem low_balance_wallet_is_skipped
    (v : version) (W : World) (rounds k : nat) (s : State) (w : Wallet)
    (b : Z) :
  wallets s !! k = Some w ->
  getBalance W (net s) = Resolved b ->
  b < MIN_BALANCE ->
  processWallet v W rounds k s
  = (Ret tt, set_net (S (net s)) s,
     [Processing (index w) (publicKey w); Call (GetBalance (publicKey w));
      Balance b; Insufficient]).
Proof.
  intros Hk Hb Hlow.
  destruct (processWallet_deployer v W rounds k) as [loop ->].
  unfold wallet_pass. eapply try_ret_eq.
  eapply (bind_ret_eq _ _ _ _ _ []); [apply wallet_at_some; exact Hk |].
  eapply (bind_ret_eq _ _ _ _ _ [_]); [reflexivity |].
  eapply (bind_ret_eq _ _ _ _ _ [_]); [apply chain_resolved; exact Hb |].
  eapply (bind_ret_eq _ _ _ _ _ [_]); [reflexivity |].
  replace (b <? MIN_BALANCE) with true by (symmetry; apply Z.ltb_lt; exact Hlow).
  reflexivity.
Qed.

(** Wallet #1 holds 0.05 SOL. *)
Lemma low_balance_wallet_is_skipped_witness :
  processWallet TokenOnlyVersion Scenario.poor 3 0 Sample.loaded
  = (Ret tt, set_net 1 Sample.loaded,
     [Processing 1 "pkA"; Call (GetBalance "pkA"); Balance 50000000;
      Insufficient]).
Proof.
  exact (low_balance_wallet_is_skipped TokenOnlyVersion Scenario.poor 3 0
           Sample.loaded (Sample.wallet 1 "A") 50000000
           eq_refl eq_refl eq_refl).
Defined.

(** X8. In either version a wallet whose balance is 0.1 SOL or more, the
    threshold itself included, is deployed to: right after logging the
    balance the pass starts the deployer of the run's asset kind for
    that wallet. *)
Theorem funded_wallet_is_deployed_to
    (v : version) (W : World) (rounds k : nat) (s : State) (w : Wallet)
    (b : Z) :
  wallets s !! k = Some w ->
  getBalance W (net s) = Resolved b ->
  MIN_BALANCE <= b ->
  exists t,
    run_trace (processWallet v W rounds k s)
    = Processing (index w) (publicKey w) :: Call (GetBalance (publicKey w))
        :: Balance b :: Creating (kind v) (index w) :: t.
Proof.
  intros Hk Hb Hfunded.
  destruct (processWallet_deployer v W rounds k) as [loop ->].
  unfold wallet_pass.
  match goal with
  | |- context [try_catch ?m ?h s] =>
      destruct (try_trace_prefix m h s) as [t2 ->]
  end.
  erewrite run_bind_ret by (apply wallet_at_some; exact Hk).
  erewrite run_bind_ret by reflexivity.
  erewrite run_bind_ret by (apply chain_resolved; exact Hb).
  erewrite run_bind_ret by reflexivity.
  replace (b <? MIN_BALANCE) with false by (symmetry; apply Z.ltb_ge; exact Hfunded).
  cbn [run_trace snd app].
  match goal with
  | |- context [bind ?m ?f ?s1] =>
      destruct (bind_trace_prefix m f s1) as [t3 ->]
  end.
  destruct (deployer_announces v W k (set_net (S (net s)) s) w Hk) as [t1 ->].
  cbn. eauto.
Qed.

(** Wallet #1 holds exactly 0.1 SOL. *)
Lemma funded_wallet_is_deployed_to_witness :
  exists t,
    run_trace (processWallet (DeployJsVersion false) Scenario.at_threshold 3 0
                 Sample.loaded)
    = Processing 1 "pkA" :: Call (GetBalance "pkA") :: Balance 100000000
        :: Creating "NFT" 1 :: t.
Proof.
  exact (funded_wallet_is_deployed_to (DeployJsVersion false)
           Scenario.at_threshold 3 0 Sample.loaded (Sample.wallet 1 "A")
           100000000 eq_refl eq_refl ltac:(discriminate)).
Defined.

(** X9. In either version, when the balance query of a pass is rejected the
    error is caught by the pass: it logs the message, waits for the
    operator to press Enter and returns to the wallet loop, with no
    deployment asked for and neither log changed. *)
Theorem balance_query_failure_skips_wallet
    (v : version) (W : World) (rounds k : nat) (s : State) (w : Wallet)
    (e : JS.error) :
  wallets s !! k = Some w ->
  getBalance W (net s) = Rejected e ->
  processWallet v W rounds k s
  = (Ret tt, set_ans (S (ans s)) (set_net (S (net s)) s),
     [Processing (index w) (publicKey w); Call (GetBalance (publicKey w));
      WalletError (JS.message e);
      Question "Press Enter to continue with next wallet..."]).
Proof.
  intros Hk Hb.
  destruct (processWallet_deployer v W rounds k) as [loop ->].
  unfold wallet_pass.
  eapply (try_throw_eq _ _ _ _ _ [_; _] _ _ [_; _]).
  - eapply (bind_ret_eq _ _ _ _ _ []); [apply wallet_at_some; exact Hk |].
    eapply (bind_ret_eq _ _ _ _ _ [_]); [reflexivity |].
    apply run_bind_throw. apply chain_rejected. exact Hb.
  - reflexivity.
Qed.

(** The balance of wallet #1 cannot be read. *)
Lemma balance_query_failure_skips_wallet_witness :
  processWallet TokenOnlyVersion Scenario.unreachable 3 0 Sample.loaded
  = (Ret tt, set_ans 1 (set_net 1 Sample.loaded),
     [Processing 1 "pkA"; Call (GetBalance "pkA");
      WalletError "blockhash not found";
      Question "Press Enter to continue with next wallet..."]).
Proof.
  exact (balance_query_failure_skips_wallet TokenOnlyVersion
           Scenario.unreachable 3 0 Sample.loaded (Sample.wallet 1 "A")
           (JS.mkError "blockhash not found") eq_refl eq_refl).
Defined.

(** X10. In either version the interaction records a pass appends all carry
    the index of the wallet of the pass, and a pass appends any only
    together with one deployment record for that wallet: a pass that
    leaves the deployment log as it was appends no interaction. *)
Theorem interactions_follow_a_deployment
    (v : version) (W : World) (rounds k : nat) (s : State) (w : Wallet) :
  wallets s !! k = Some w ->
  (Z.to_nat (interactionCount (settings s)) <= rounds)%nat ->
  let s' := run_state (processWallet v W rounds k s) in
  exists xs,
    interactions s' = interactions s ++ xs
    /\ Forall (fun x => i_walletIndex x = index w) xs
    /\ (xs <> [] ->
        exists d, deployments s' = deployments s ++ [d]
                  /\ d_walletIndex d = index w)
    /\ (deployments s' = deployments s -> xs = []).
Proof.
  intros Hk Hr s'. subst s'.
  destruct (processWallet_spec v W rounds k s w Hk Hr)
    as (s1 & t & Hrun & _ & _ & _ & _ & Hcase).
  rewrite Hrun. cbn [run_state fst snd].
  destruct Hcase as [(_ & _ & Hd & _ & _ & _ & (xs & Hxs & _ & Hall))
                    | (_ & Hd & Hx & _)].
  - exists xs. split; [exact Hxs |]. split; [exact Hall |].
    split; [intros _; exact Hd |].
    destruct Hd as (d & Hd & _). intros Heq. rewrite Heq in Hd.
    apply (f_equal length) in Hd. rewrite length_app in Hd. cbn in Hd. lia.
  - exists []. rewrite app_nil_r. split; [exact Hx |].
    split; [constructor |]. split; [congruence | reflexivity].
Qed.

(** A token-only pass on a chain that refuses two of the three
    submissions. *)
Lemma interactions_follow_a_deployment_witness :
  let s' := run_state (processWallet TokenOnlyVersion Sample.flaky 3 0
                         Sample.loaded) in
  exists xs,
    interactions s' = interactions Sample.loaded ++ xs
    /\ Forall (fun x => i_walletIndex x = 1) xs
    /\ (xs <> [] ->
        exists d, deployments s' = deployments Sample.loaded ++ [d]
                  /\ d_walletIndex d = 1)
    /\ (deployments s' = deployments Sample.loaded -> xs = []).
Proof.
  exact (interactions_follow_a_deployment TokenOnlyVersion Sample.flaky 3 0
           Sample.loaded (Sample.wallet 1 "A") eq_refl ltac:(cbn; lia)).
Defined.

(** ** The deployment run *)


(** In [deploy.js] the answer 3 to the deploy menu returns at once. *)
Lemma deployjs_choice_3_goes_back (W : World) (rounds : nat) (s : State) :
  answer W (ans s) = "3" ->
  DeployJs.startDeployment W rounds s
  = (Ret tt, set_ans (S (ans s)) s, [Question "Enter your choice (1-3): "]).
Proof.
  intros H. unfold DeployJs.startDeployment, bind, question. cbn.
  rewrite H. reflexivity.
Qed.



(** X12. In the token-only version an answer to the deploy menu other than 1
    deploys nothing: 2 returns at once, and any other text is reported
    as an invalid choice, after which the operator presses Enter.  No
    request reaches the chain and the deployer is unchanged. *)
Theorem tokenonly_other_choice_deploys_nothing
    (W : World) (rounds : nat) (s : State) :
  answer W (ans s) <> "1" ->
  TokenOnly.startDeployment W rounds s
  = if String.eqb (answer W (ans s)) "2"
    then (Ret tt, set_ans (S (ans s)) s, [Question "Enter your choice (1-2): "])
    else (Ret tt, set_ans (S (S (ans s))) s,
          [Question "Enter your choice (1-2): "; Invalid;
           Question "Press Enter to continue..."]).
Proof.
  intros Hc. unfold TokenOnly.startDeployment, bind, question, emit, ret. cbn.
  rewrite (eqb_false_of_neq _ _ Hc).
  destruct (String.eqb (answer W (ans s)) "2"); reflexivity.
Qed.

(** The operator answers x to the deploy menu of the token-only
    version. *)
Lemma tokenonly_other_choice_deploys_nothing_witness :
  TokenOnly.startDeployment (Sample.typing ["x"] Sample.calm) 3 Sample.loaded
  = (Ret tt, set_ans 2 Sample.loaded,
     [Question "Enter your choice (1-2): "; Invalid;
      Question "Press Enter to continue..."]).
Proof.
  exact (tokenonly_other_choice_deploys_nothing
           (Sample.typing ["x"] Sample.calm) 3 Sample.loaded
           ltac:(discriminate)).
Defined.



(** ** Reports: writing, listing and viewing *)











(** ** The settings menu: what it leaves alone *)

Lemma settingsMenu_body_frame W s :
  exists leave s' t,
    settingsMenu_body W s = (Ret leave, s', t)
    /\ wallets s' = wallets s /\ deployments s' = deployments s
    /\ interactions s' = interactions s /\ files s' = files s
    /\ rnd s' = rnd s /\ clk s' = clk s /\ net s' = net s
    /\ forallb (fun e => negb (is_call e)) t = true
    /\ (answer W (ans s) <> "1" -> answer W (ans s) <> "2" ->
        settings s' = settings s)
    /\ (leave = true <-> answer W (ans s) = "4").
Proof.
  unfold settingsMenu_body, bind, question, modify, emit, get, ret. cbn.
  destruct (String.eqb_spec (answer W (ans s)) "1") as [E1 | E1]; cbn.
  { eexists; eexists; eexists; split; [reflexivity |]. cbn.
    repeat split; try tauto; try discriminate; congruence. }
  destruct (String.eqb_spec (answer W (ans s)) "2") as [E2 | E2]; cbn.
  { eexists; eexists; eexists; split; [reflexivity |]. cbn.
    repeat split; try tauto; try discriminate; congruence. }
  destruct (String.eqb_spec (answer W (ans s)) "3") as [E3 | E3]; cbn.
  { eexists; eexists; eexists; split; [reflexivity |]. cbn.
    repeat split; try tauto; try discriminate; congruence. }
  destruct (String.eqb_spec (answer W (ans s)) "4") as [E4 | E4]; cbn;
    (eexists; eexists; eexists; split; [reflexivity |]); cbn;
    repeat split; try tauto; try discriminate.
Qed.

(** X17. However long the operator stays in [settingsMenu] and whatever is
    typed, the menu never throws, sends no request to the chain, draws
    no random number, reads no clock, and leaves the wallets, both logs
    and the directory as they were. *)
Theorem settings_menu_touches_settings_only (W : World) (rounds : nat) (s : State) :
  let x := settingsMenu W rounds s in
  (forall e, run_result x <> Throw e)
  /\ wallets (run_state x) = wallets s
  /\ deployments (run_state x) = deployments s
  /\ interactions (run_state x) = interactions s
  /\ files (run_state x) = files s
  /\ rnd (run_state x) = rnd s /\ clk (run_state x) = clk s
  /\ net (run_state x) = net s
  /\ forallb (fun e => negb (is_call e)) (run_trace x) = true.
Proof.
  cbv zeta. revert s. induction rounds as [| n IH]; intros s.
  - cbn. repeat split. discriminate.
  - destruct (settingsMenu_body_frame W s)
      as (leave & s1 & t1 & Hrun & Hw & Hd & Hi & Hf & Hr & Hc & Hn & Ht & _).
    cbn [settingsMenu]. erewrite run_bind_ret by exact Hrun.
    cbn [run_result run_state run_trace fst snd]. destruct leave.
    + cbn. rewrite app_nil_r. repeat split; try assumption. discriminate.
    + destruct (IH s1) as (Ie & Iw & Id & Ii & If & Ir & Ic & In' & It).
      rewrite forallb_app, Ht, It.
      repeat split; try congruence; apply Ie.
Qed.

(** X18. A pass of the settings menu whose answer is neither 1 nor 2 leaves
    both settings as they were; the menu is left exactly when the answer
    is 4, and the answer 3 shows the two current values. *)
Theorem settings_menu_view_changes_nothing (W : World) (s : State) :
  answer W (ans s) <> "1" ->
  answer W (ans s) <> "2" ->
  let x := settingsMenu_body W s in
  settings (run_state x) = settings s
  /\ (run_result x = Ret true <-> answer W (ans s) = "4")
  /\ (answer W (ans s) = "3" ->
      run_trace x
      = [Question "Enter your choice (1-4): ";
         ShowSettings (interactionCount (settings s))
           (interactionInterval (settings s));
         Question "Press Enter to continue..."]).
Proof.
  intros H1 H2 x. subst x.
  destruct (settingsMenu_body_frame W s)
    as (leave & s1 & t1 & Hrun & _ & _ & _ & _ & _ & _ & _ & _ & Hs & Hl).
  split; [rewrite Hrun; cbn; auto |]. split.
  - rewrite Hrun. cbn. rewrite <- Hl. split; congruence.
  - intros H3. unfold settingsMenu_body, bind, question, emit, get, ret. cbn.
    rewrite H3. reflexivity.
Qed.

(** The operator views the settings of a fresh deployer. *)
Lemma settings_menu_view_changes_nothing_witness :
  let x := settingsMenu_body (Sample.typing ["3"] Sample.calm) (constructor ∅) in
  settings (run_state x) = {| interactionCount := 3; interactionInterval := 1 |}
  /\ (run_result x = Ret true <-> "3" = "4")
  /\ ("3" = "3" ->
      run_trace x
      = [Question "Enter your choice (1-4): "; ShowSettings 3 1;
         Question "Press Enter to continue..."]).
Proof.
  exact (settings_menu_view_changes_nothing (Sample.typing ["3"] Sample.calm)
           (constructor ∅) ltac:(discriminate) ltac:(discriminate)).
Defined.

(** ** The NFT handler *)

(** X19. [performNFTInteraction] on a wallet whose [nftAccounts] map has no
    entry for the given address throws [Error('NFT not found')] for
    every action, before the clock or the random source is read and
    before any request leaves for the chain. *)
Theorem nft_not_found_before_any_effect
    (W : World) (s : State) (k : nat) (w : Wallet) (nftData : Deployed)
    (action : string) :
  wallets s !! k = Some w ->
  nftAccounts w !! address nftData = None ->
  DeployJs.performNFTInteraction W k nftData action s
  = (Throw (JS.mkError "NFT not found"), s, []).
Proof.
  intros Hk Hnone. unfold DeployJs.performNFTInteraction, bind, wallet_at, get.
  cbn. rewrite Hk. cbn. rewrite Hnone. reflexivity.
Qed.

(** Wallet #2 never deployed the NFT that wallet #1 created. *)
Lemma nft_not_found_before_any_effect_witness :
  DeployJs.performNFTInteraction Sample.calm 1 Sample.TheNft "transfer"
    Sample.nft_deployed
  = (Throw (JS.mkError "NFT not found"), Sample.nft_deployed, []).
Proof.
  exact (nft_not_found_before_any_effect Sample.calm Sample.nft_deployed 1
           (Sample.wallet 2 "B") Sample.TheNft "transfer" eq_refl eq_refl).
Defined.

(** X20. The NFT action mint creates a new NFT named after the deployed one
    and the clock reading, with the deployed NFT as its collection, and
    returns the new address in its text.  The new NFT is not entered in
    any wallet's [nftAccounts]: the deployer is as before. *)
Theorem nft_mint_is_linked_but_not_registered
    (W : World) (s : State) (k : nat) (w : Wallet) (nftData : Deployed)
    (nft newNFT : Nft) :
  wallets s !! k = Some w ->
  nftAccounts w !! address nftData = Some nft ->
  nftCreate W (net s) = Resolved newNFT ->
  DeployJs.performNFTInteraction W k nftData "mint" s
  = (Ret (JS.Str ("Minted new NFT: " +:+ nft_address newNFT)),
     set_net (S (net s)) (set_clk (S (clk s)) s),
     [Call (NftCreate (nft_name nft +:+ " #" +:+ JS.toString (clock W (clk s)))
              (Some (nft_address nft)))]).
Proof.
  intros Hk Hnft Hnew.
  unfold DeployJs.performNFTInteraction, bind, chain, now, wallet_at, get, ret.
  cbn. rewrite Hk. cbn. rewrite Hnft. cbn. rewrite Hnew. reflexivity.
Qed.

Lemma nft_mint_is_linked_but_not_registered_witness :
  DeployJs.performNFTInteraction Sample.calm 0 Sample.TheNft "mint"
    Sample.nft_deployed
  = (Ret (JS.Str "Minted new NFT: Nft"),
     set_net 1 (set_clk 1 Sample.nft_deployed),
     [Call (NftCreate "ONIXIA NFT #1700000000000" (Some "Nft"))]).
Proof.
  exact (nft_mint_is_linked_but_not_registered Sample.calm Sample.nft_deployed 0
           Scenario.collector Sample.TheNft Scenario.the_nft Scenario.the_nft
           eq_refl eq_refl eq_refl).
Defined.



(** ** The balance table *)

Lemma set_net_same s : set_net (net s) s = s.
Proof. destruct s. reflexivity. Qed.

Lemma balanceRows_run W solText ws :
  forall bs s,
    length bs = length ws ->
    (forall i b, bs !! i = Some b -> getBalance W (net s + i) = Resolved b) ->
    Menu.balanceRows W solText ws s
    = (Ret (zip_with (Menu.balanceRow solText) ws bs),
       set_net (net s + length ws) s,
       map (fun w => Call (GetBalance (publicKey w))) ws).
Proof.
  induction ws as [| w ws IH]; intros bs s Hlen Hb.
  - cbn. rewrite Nat.add_0_r, set_net_same. reflexivity.
  - destruct bs as [| b bs]; [discriminate |].
    cbn [Menu.balanceRows zip_with].
    etransitivity.
    { eapply bind_ret_eq.
      { apply chain_resolved. rewrite <- (Nat.add_0_r (net s)). apply Hb.
        reflexivity. }
      eapply bind_ret_eq; [| reflexivity].
      apply (IH bs).
      - cbn in Hlen. lia.
      - intros i b' Hi. cbn [net set_net].
        replace (S (net s) + i)%nat with (net s + S i)%nat by lia.
        apply Hb. exact Hi. }
    cbn. rewrite app_nil_r. unfold set_net.
    replace (S (net s + length ws)) with (net s + S (length ws))%nat by lia.
    reflexivity.
Qed.

(** X22. When every balance query is answered, [showAllBalances] queries the
    wallets in load order, one request each, prints one table with one
    row per wallet in that order (index, address, balance) and returns
    after the operator presses Enter. *)
Theorem balance_table_has_one_row_per_wallet
    (W : World) (solText : Z -> string) (s : State) (bs : list Z) :
  length bs = length (wallets s) ->
  (forall i b, bs !! i = Some b -> getBalance W (net s + i) = Resolved b) ->
  Menu.showAllBalances W solText s
  = (Ret tt,
     set_ans (S (ans s)) (set_net (net s + length (wallets s)) s),
     map (fun w => Call (GetBalance (publicKey w))) (wallets s)
     ++ [Print (renderTable W ["#"; "Wallet Address"; "Balance"]
                  (zip_with (Menu.balanceRow solText) (wallets s) bs));
         Question "Press Enter to return to main menu..."]).
Proof.
  intros Hlen Hb. unfold Menu.showAllBalances.
  eapply (bind_ret_eq _ _ _ _ _ []); [reflexivity |].
  eapply bind_ret_eq; [apply balanceRows_run; eassumption |].
  reflexivity.
Qed.

(** Three wallets of 2 SOL each. *)
Lemma balance_table_has_one_row_per_wallet_witness :
  Menu.showAllBalances Sample.calm Scenario.lamportsText Sample.loaded
  = (Ret tt, set_ans 1 (set_net 3 Sample.loaded),
     [Call (GetBalance "pkA"); Call (GetBalance "pkB"); Call (GetBalance "pkC");
      Print (renderTable Sample.calm ["#"; "Wallet Address"; "Balance"]
               [["1"; "pkA"; "2000000000 lamports"];
                ["2"; "pkB"; "2000000000 lamports"];
                ["3"; "pkC"; "2000000000 lamports"]]);
      Question "Press Enter to return to main menu..."]).
Proof.
  apply (balance_table_has_one_row_per_wallet Sample.calm Scenario.lamportsText
           Sample.loaded [2000000000; 2000000000; 2000000000] eq_refl).
  intros [| [| [| i]]] b H; cbn in H; inversion H; reflexivity.
Defined.

Lemma balanceRows_rejected W solText ws :
  forall s j w e,
    ws !! j = Some w ->
    (forall i, (i < j)%nat -> exists b, getBalance W (net s + i) = Resolved b) ->
    getBalance W (net s + j) = Rejected e ->
    Menu.balanceRows W solText ws s
    = (Throw e, set_net (net s + S j) s,
       map (fun w => Call (GetBalance (publicKey w))) (take (S j) ws)).
Proof.
  induction ws as [| w0 ws IH]; intros s j w e Hj Hbefore Hrej; [discriminate |].
  cbn [Menu.balanceRows]. destruct j as [| j].
  - apply run_bind_throw. rewrite Nat.add_0_r in Hrej.
    rewrite (chain_rejected _ _ _ _ _ Hrej).
    replace (net s + 1)%nat with (S (net s)) by lia. reflexivity.
  - destruct (Hbefore 0%nat ltac:(lia)) as [b Hb]. rewrite Nat.add_0_r in Hb.
    eapply (bind_ret_eq _ _ _ _ _ [_]); [apply chain_resolved; exact Hb |].
    apply run_bind_throw.
    rewrite (IH (set_net (S (net s)) s) j w e Hj).
    + cbn [net set_net].
      replace (S (net s) + S j)%nat with (net s + S (S j))%nat by lia.
      reflexivity.
    + intros i Hi. cbn [net set_net].
      replace (S (net s) + i)%nat with (net s + S i)%nat by lia.
      apply Hbefore. lia.
    + cbn [net set_net].
      replace (S (net s) + j)%nat with (net s + S j)%nat by lia. exact Hrej.
Qed.

(** X23. [showAllBalances] has no [catch]: at the first balance query the
    chain rejects, the error leaves the function as it is; the wallets
    after that one are not queried, no table is printed and the operator
    is not prompted. *)
Theorem balance_table_stops_at_first_failure
    (W : World) (solText : Z -> string) (s : State) (j : nat) (w : Wallet)
    (e : JS.error) :
  wallets s !! j = Some w ->
  (forall i, (i < j)%nat -> exists b, getBalance W (net s + i) = Resolved b) ->
  getBalance W (net s + j) = Rejected e ->
  Menu.showAllBalances W solText s
  = (Throw e, set_net (net s + S j) s,
     map (fun w => Call (GetBalance (publicKey w))) (take (S j) (wallets s))).
Proof.
  intros Hj Hbefore Hrej. unfold Menu.showAllBalances.
  eapply (bind_ret_eq _ _ _ _ _ []); [reflexivity |].
  apply run_bind_throw. eapply balanceRows_rejected; eassumption.
Qed.

(** No balance can be read. *)
Lemma balance_table_stops_at_first_failure_witness :
  Menu.showAllBalances Scenario.unreachable Scenario.lamportsText Sample.loaded
  = (Throw (JS.mkError "blockhash not found"), set_net 1 Sample.loaded,
     [Call (GetBalance "pkA")]).
Proof.
  apply (balance_table_stops_at_first_failure Scenario.unreachable
           Scenario.lamportsText Sample.loaded 0 (Sample.wallet 1 "A")
           (JS.mkError "blockhash not found") eq_refl).
  - intros i Hi. lia.
  - reflexivity.
Defined.

(** ** The entry point *)

(** X24. When [init] answers [false], [main] prints the initialization
    message and ends the process with exit code 1; the main menu is never
    shown. *)
Theorem main_exits_when_init_fails
    (W : World) (solText : Z -> string) (start : nat -> M unit)
    (file : read_result) (dir : gmap string string) (inner rounds : nat) :
  run_result (init W file (constructor dir)) = Ret false ->
  Menu.main W solText start file dir inner rounds
  = (Menu.Exit 1, run_state (init W file (constructor dir)),
     run_trace (init W file (constructor dir))
     ++ [Print "Initialization failed. Please check your configuration."]).
Proof.
  intros H. unfold Menu.main, Menu.main_body, bind.
  destruct (init W file (constructor dir)) as [[r s1] t1].
  cbn in H. subst r. reflexivity.
Qed.

(** There is no key file. *)
Lemma main_exits_when_init_fails_witness :
  Menu.main Sample.calm Scenario.lamportsText
    (TokenOnly.startDeployment Sample.calm)
    (ReadError "ENOENT" "no such file or directory") ∅ 3 3
  = (Menu.Exit 1, constructor ∅,
     [KeyFileMissing;
      Print "Initialization failed. Please check your configuration."]).
Proof.
  exact (main_exits_when_init_fails Sample.calm Scenario.lamportsText
           (TokenOnly.startDeployment Sample.calm)
           (ReadError "ENOENT" "no such file or directory") ∅ 3 3 eq_refl).
Defined.

Lemma init_loaded_state W content dir :
  run_result (init W (FileContent content) (constructor dir)) = Ret true ->
  exists w ws t,
    init W (FileContent content) (constructor dir)
    = (Ret true, set_wallets (w :: ws) (constructor dir), t).
Proof.
  destruct (init_run W content (constructor dir)) as (loaded & t & _ & ->).
  destruct (omap id loaded) as [| w ws]; cbn; [discriminate |]. eauto.
Qed.

(** X25. A balance query that fails under 'Check Wallet Balances' of the main
    menu ends the process: the error crosses [displayMenu] and [main],
    is logged by the handler installed on [main()] and the process exits
    with code 1.  (The same failure inside a deployment run is caught by
    the pass, X9.) *)
Theorem balance_failure_in_menu_ends_the_process
    (W : World) (solText : Z -> string) (start : nat -> M unit)
    (content : string) (dir : gmap string string) (inner rounds : nat)
    (e : JS.error) :
  run_result (init W (FileContent content) (constructor dir)) = Ret true ->
  answer W 0 = "1" ->
  getBalance W 0 = Rejected e ->
  (0 < rounds)%nat ->
  let x := Menu.main W solText start (FileContent content) dir inner rounds in
  fst (fst x) = Menu.Exit 1
  /\ exists t, snd x = t ++ [Question "Enter your choice (1-5): ";
                             Call (GetBalance
                                     (from_option publicKey ""
                                        (head (wallets (snd (fst x))))));
                             RunError (JS.message e)].
Proof.
  intros Hinit Hans Hrej Hpos x. subst x.
  destruct (init_loaded_state W content dir Hinit) as (w & ws & t & Hrun).
  destruct rounds as [| n]; [lia |].
  assert (exists s',
            Menu.main_body W solText start (FileContent content) inner (S n)
              (constructor dir)
            = (Throw e, s',
               t ++ [Question "Enter your choice (1-5): ";
                     Call (GetBalance (publicKey w))])
            /\ wallets s' = w :: ws) as (s' & Hbody & Hw).
  { eexists. split.
    - unfold Menu.main_body.
      eapply bind_ret_eq; [exact Hrun |]. cbv beta iota.
      apply run_bind_throw. cbn [Menu.displayMenu].
      eapply (bind_ret_eq _ _ _ _ _ [_] _ _ [_]); [reflexivity |]. cbv beta.
      cbn [ans set_wallets constructor]. rewrite Hans.
      cbn [String.eqb Ascii.eqb Bool.eqb].
      apply run_bind_throw.
      etransitivity.
      { unfold Menu.showAllBalances.
        eapply (bind_ret_eq _ _ _ _ _ []); [reflexivity |].
        apply run_bind_throw.
        apply (balanceRows_rejected W solText (w :: ws)
                 (set_ans 1 (set_wallets (w :: ws) (constructor dir))) 0 w e).
        - reflexivity.
        - intros i Hi. lia.
        - exact Hrej. }
      reflexivity.
    - reflexivity. }
  unfold Menu.main. rewrite Hbody. cbn [fst snd]. rewrite Hw.
  split; [reflexivity |]. exists t. rewrite <- app_assoc. reflexivity.
Qed.

(** One wallet; the operator asks for the balances and the query fails. *)
Lemma balance_failure_in_menu_ends_the_process_witness :
  let x := Menu.main Scenario.unreachable Scenario.lamportsText
             (TokenOnly.startDeployment Scenario.unreachable)
             (FileContent "A") ∅ 3 3 in
  fst (fst x) = Menu.Exit 1
  /\ exists t, snd x = t ++ [Question "Enter your choice (1-5): ";
                             Call (GetBalance "pkA");
                             RunError "blockhash not found"].
Proof.
  exact (balance_failure_in_menu_ends_the_process Scenario.unreachable
           Scenario.lamportsText
           (TokenOnly.startDeployment Scenario.unreachable)
           "A" ∅ 3 3 (JS.mkError "blockhash not found")
           eq_refl eq_refl eq_refl ltac:(lia)).
Defined.

(** X26. When the wallets are loaded and the operator answers 5 to the main
    menu, the farewell is printed and [main] returns; nothing of the
    deployer has changed since [init]. *)
Theorem exit_choice_ends_the_menu
    (W : World) (solText : Z -> string) (start : nat -> M unit)
    (content : string) (dir : gmap string string) (inner rounds : nat) :
  run_result (init W (FileContent content) (constructor dir)) = Ret true ->
  answer W 0 = "5" ->
  (0 < rounds)%nat ->
  Menu.main W solText start (FileContent content) dir inner rounds
  = (Menu.Returned,
     set_ans 1 (run_state (init W (FileContent content) (constructor dir))),
     run_trace (init W (FileContent content) (constructor dir))
     ++ [Question "Enter your choice (1-5): ";
         Print "Thank you for using ONIXIA Sonic Deployer!"]).
Proof.
  intros Hinit Hans Hpos.
  destruct (init_loaded_state W content dir Hinit) as (w & ws & t & Hrun).
  destruct rounds as [| n]; [lia |].
  unfold Menu.main, Menu.main_body. rewrite Hrun.
  cbn [run_state run_trace fst snd].
  erewrite bind_ret_eq.
  2: exact Hrun.
  2: { cbv beta iota. eapply bind_ret_eq; [| reflexivity].
       cbn [Menu.displayMenu].
       eapply (bind_ret_eq _ _ _ _ _ [_]); [reflexivity |]. cbv beta.
       cbn [ans set_wallets constructor]. rewrite Hans. reflexivity. }
  cbn. rewrite ?app_nil_r. reflexivity.
Qed.

(** One wallet; the operator leaves at once. *)
Lemma exit_choice_ends_the_menu_witness :
  let W := Sample.typing ["5"] Sample.calm in
  Menu.main W Scenario.lamportsText (TokenOnly.startDeployment W)
    (FileContent "A") ∅ 3 3
  = (Menu.Returned,
     set_ans 1 (set_wallets [Sample.wallet 1 "A"] (constructor ∅)),
     [Loaded 1; Question "Enter your choice (1-5): ";
      Print "Thank you for using ONIXIA Sonic Deployer!"]).
Proof.
  exact (exit_choice_ends_the_menu (Sample.typing ["5"] Sample.calm)
           Scenario.lamportsText
           (TokenOnly.startDeployment (Sample.typing ["5"] Sample.calm))
           "A" ∅ 3 3 eq_refl eq_refl ltac:(lia)).
Defined.

(** ** The run as a whole *)

(** X27. With a loop bound of at least the interaction count, the wallet loop
    of either version returns after exactly one pass per loaded wallet,
    in load order, each pass announcing its wallet, whatever fails on the
    way.  The settings and the identities of the wallets are as before,
    the deployment log has only grown, and the attempts of the run are
    the count times the number of deployments recorded. *)
Theorem run_visits_every_wallet
    (v : version) (W : World) (rounds : nat) (s : State) :
  (Z.to_nat (interactionCount (settings s)) <= rounds)%nat ->
  exists s' ts ds,
    processWallets v W rounds s = (Ret tt, s', concat ts)
    /\ length ts = length (wallets s)
    /\ Forall2 (announces s) (seq 0 (length (wallets s))) ts
    /\ settings s' = settings s
    /\ same_identities s s'
    /\ deployments s' = deployments s ++ ds
    /\ attempts (concat ts)
       = (length ds * Z.to_nat (interactionCount (settings s)))%nat.
Proof.
  intros Hr.
  destruct (wallet_loop_spec v W rounds (seq 0 (length (wallets s))) s)
    as (s' & ts & ds & Hrun & Hs & Hid & Hall & Hd & Ha).
  { apply List.Forall_forall. intros k Hk. apply in_seq in Hk.
    apply lookup_lt_is_Some. lia. }
  { exact Hr. }
  exists s', ts, ds.
  split.
  { destruct v as [| token]; cbn [processWallets].
    - unfold TokenOnly.processWallets.
      eapply (bind_ret_eq _ _ _ _ _ []); [reflexivity |]. exact Hrun.
    - unfold DeployJs.processWallets.
      eapply (bind_ret_eq _ _ _ _ _ []); [reflexivity |]. exact Hrun. }
  split.
  { apply Forall2_length in Hall. rewrite length_seq in Hall. lia. }
  auto.
Qed.

(** Three wallets on a chain that is down: three passes, no deployment,
    no attempt. *)
Lemma run_visits_every_wallet_witness :
  exists s' ts ds,
    processWallets (DeployJsVersion true) Sample.offline 3 Sample.loaded
    = (Ret tt, s', concat ts)
    /\ length ts = 3%nat
    /\ Forall2 (announces Sample.loaded) [0; 1; 2]%nat ts
    /\ settings s' = settings Sample.loaded
    /\ same_identities Sample.loaded s'
    /\ deployments s' = deployments Sample.loaded ++ ds
    /\ attempts (concat ts) = (length ds * 3)%nat.
Proof.
  exact (run_visits_every_wallet (DeployJsVersion true) Sample.offline 3
           Sample.loaded ltac:(cbn; lia)).
Defined.

(** ** One interaction *)

(** X28. In either version an iteration whose handler returns appends exactly
    one interaction record, carrying the index of the wallet of the pass,
    the action drawn and the value the handler returned; the deployment
    log and the wallets are untouched, and the iteration pauses once when
    it is not the last one and not at all when it is. *)
Theorem successful_interaction_is_recorded
    (v : version) (W : World) (k : nat) (result : Deployed) (i : Z)
    (s : State) (w : Wallet) (out : JS.value) :
  wallets s !! k = Some w ->
  run_result (handler v W k result (drawn W (actions v) s) (set_rnd (S (rnd s)) s))
    = Ret out ->
  let x := interaction v W k result i s in
  run_result x = Ret tt
  /\ (exists r, interactions (run_state x) = interactions s ++ [r]
                /\ i_walletIndex r = index w
                /\ i_action r = drawn W (actions v) s
                /\ i_result r = out)
  /\ deployments (run_state x) = deployments s
  /\ wallets (run_state x) = wallets s
  /\ pauses (run_trace x)
     = (if i <? interactionCount (settings s) then 1%nat else 0%nat).
Proof.
  intros Hk He x. subst x. rewrite interaction_shape.
  destruct (iteration_spec W (handler v W k result)
              (match v with DeployJsVersion false => "NFT" | _ => "Token" end)
              (actions v) k i s w (quiet_handler v W k result) Hk)
    as (s' & t & Hrun & _ & Hw & Hd & _ & _ & _ & _ & Hcase).
  rewrite He in Hcase. destruct Hcase as (_ & _ & Hx & Hp & _).
  rewrite Hrun. cbn [run_result run_state run_trace fst snd]. auto.
Qed.

(** First of two interactions, one minute apart, on a calm chain. *)
Lemma successful_interaction_is_recorded_witness :
  let s := Sample.with_count 2 1 Sample.token_deployed in
  let x := interaction TokenOnlyVersion Sample.calm 0 Sample.Mint 1 s in
  run_result x = Ret tt
  /\ (exists r, interactions (run_state x) = interactions s ++ [r]
                /\ i_walletIndex r = 1
                /\ i_action r = "mint"
                /\ i_result r = JS.Str "Minted 334 tokens")
  /\ deployments (run_state x) = deployments s
  /\ wallets (run_state x) = wallets s
  /\ pauses (run_trace x) = 1%nat.
Proof.
  exact (successful_interaction_is_recorded TokenOnlyVersion Sample.calm 0
           Sample.Mint 1 (Sample.with_count 2 1 Sample.token_deployed)
           Scenario.holder (JS.Str "Minted 334 tokens") eq_refl eq_refl).
Defined.



(** ** The report prompt of the token-only version *)

